(** * pubmedtools: paged retrieval and record parsing

    A shallow embedding of [src/pubmedtools/pubmedtools.py]:
    [pubmed_search_biopython] (the hosted-API path, lines 42-146) and the
    record loop of [pubmed_search_edirect] (the local-tool path, lines
    148-256), together with the Python builtins they rely on
    ([range], [int], [re.sub], [dict.get]).

    Python [str] values are modelled as [string], read as sequences of
    code points below 256; Python [int] values as [Z]. *)

From Stdlib Require Import ZArith Lia List Bool Ascii String.
From stdpp Require Import base option gmap strings.
Import ListNotations.

Open Scope string_scope.
Open Scope list_scope.
Open Scope Z_scope.

(** ** Exceptions and results *)

Inductive value_error : Type :=
| IntLiteral
    (* int(): invalid literal for base 10, or more digits than the
       conversion limit *)
| RangeStep.
    (* range() arg 3 must not be zero *)

(** The exceptions that can leave the two search functions. *)
Inductive exn : Type :=
| ResultSetTooLarge (count : Z)
    (* line 89: raise Exception("This search has {count} results. ...") *)
| UnsupportedSystem (system : string)
    (* line 222: raise Exception('Unsupported operating system: ...') *)
| ImportError
    (* line 179: the edirect folder is missing *)
| ValueError (what : value_error)
| TypeError
    (* re.sub or int applied to a list *)
| TransportError (e : string).
    (* whatever Entrez.esearch, Entrez.efetch or subprocess raise *)

Inductive result (A : Type) : Type :=
| Ok (a : A)
| Err (e : exn).
Arguments Ok {A} a.
Arguments Err {A} e.

Definition is_ok {A} (r : result A) : bool :=
  match r with Ok _ => true | Err _ => false end.

(** ** Python builtins *)

Module Py.

(** [range(start, stop, step)] as the list it iterates over.  The length
    is the one CPython computes; a zero step raises [ValueError]. *)
Definition range_length (start stop step : Z) : Z :=
  if 0 <? step then
    if start <? stop then (stop - start - 1) / step + 1 else 0
  else
    if stop <? start then (start - stop - 1) / (- step) + 1 else 0.

Definition range (start stop step : Z) : result (list Z) :=
  if step =? 0 then Err (ValueError RangeStep)
  else Ok (List.map (fun i : nat => start + Z.of_nat i * step)
                    (List.seq 0 (Z.to_nat (range_length start stop step)))).

(** Truth value of an optional string ([None] and [''] are falsy). *)
Definition truthy (o : option string) : bool :=
  match o with
  | None => false
  | Some s => negb (String.eqb s "")
  end.

Definition code (c : ascii) : N := N_of_ascii c.

(** The class [\s] of [re] on [str] patterns, for code points below 256. *)
Definition is_space (c : ascii) : bool :=
  let n := code c in
  ((9 <=? n) && (n <=? 13) || (28 <=? n) && (n <=? 31) || (n =? 32)
   || (n =? 133) || (n =? 160))%N.

(** [re.sub('\s+', ' ', s)]: scanning from the left, every maximal run of
    [\s] characters is one match and is replaced by one space; all other
    characters are copied. *)
Fixpoint re_sub_spaces (s : string) : string :=
  match s with
  | EmptyString => EmptyString
  | String c t =>
      if is_space c then
        String " "
          ((fix skip (u : string) : string :=
              match u with
              | EmptyString => EmptyString
              | String d v =>
                  if is_space d then skip v else String d (re_sub_spaces v)
              end) t)
      else String c (re_sub_spaces t)
  end.

(** [int(s)] for a [str] argument, base 10. *)

(** White space that [int] skips at both ends. *)
Definition is_int_space (c : ascii) : bool :=
  let n := code c in
  ((9 <=? n) && (n <=? 13) || (n =? 32) || (n =? 133) || (n =? 160))%N.

Definition is_digit (c : ascii) : bool :=
  let n := code c in ((48 <=? n) && (n <=? 57))%N.

Definition digit_value (c : ascii) : Z := Z.of_N (code c) - 48.

Fixpoint lstrip (s : string) : string :=
  match s with
  | EmptyString => EmptyString
  | String c t => if is_int_space c then lstrip t else s
  end.

Fixpoint rstrip (s : string) : string :=
  match s with
  | EmptyString => EmptyString
  | String c t =>
      match rstrip t with
      | EmptyString => if is_int_space c then EmptyString else String c EmptyString
      | t' => String c t'
      end
  end.

(** Digits with single underscores between them; [prev] tells whether the
    previous character was a digit. *)
Fixpoint digits (s : string) (acc : Z) (prev : bool) : option Z :=
  match s with
  | EmptyString => if prev then Some acc else None
  | String c t =>
      if is_digit c then digits t (10 * acc + digit_value c) true
      else if Ascii.eqb c "_" then
             if prev then digits t acc false else None
      else None
  end.

Fixpoint count_digits (s : string) : nat :=
  match s with
  | EmptyString => O
  | String c t => if is_digit c then S (count_digits t) else count_digits t
  end.

(** [sys.get_int_max_str_digits()], the default limit. *)
Definition int_max_str_digits : nat := 4300.

Definition int_of_str (s : string) : result Z :=
  let body := rstrip (lstrip s) in
  let '(sign, ds) :=
    match body with
    | String "+" t => (1, t)
    | String "-" t => (-1, t)
    | _ => (1, body)
    end in
  match digits ds 0 false with
  | None => Err (ValueError IntLiteral)
  | Some n =>
      if (int_max_str_digits <? count_digits ds)%nat
      then Err (ValueError IntLiteral)
      else Ok (sign * n)
  end.

End Py.

(** ** Records and rows *)

(** A value of a Medline record: a string, or a list of strings for the
    repeatable tags. *)
Inductive value : Type :=
| VStr (s : string)
| VList (l : list string).

(** A record as [Medline.parse] yields it: a dict from tag to value. *)
Abbreviation RawRecord := (gmap string value).

(** [record.get(tag, '')] *)
Definition record_get (record : RawRecord) (tag : string) : value :=
  default (VStr "") (record !! tag).

(** [re.sub('\s+', ' ', v)]: a list argument raises [TypeError]. *)
Definition re_sub (v : value) : result value :=
  match v with
  | VStr s => Ok (VStr (Py.re_sub_spaces s))
  | VList _ => Err TypeError
  end.

(** [int(v)] *)
Definition int (v : value) : result Z :=
  match v with
  | VStr s => Py.int_of_str s
  | VList _ => Err TypeError
  end.

(** One row of the returned table (a dict with these seven keys). *)
Record Row : Type := mkRow {
  pmid : Z;
  ti : value;
  ab : value;
  fau : value;
  dp : value;
  mh : value;
  ot : value
}.

(** The table handed to [pd.DataFrame]: the rows in insertion order. *)
Definition Table : Type := list Row.

Notation "'try' x := r 'in' k" :=
  (match r with Ok x => k | Err e => Err e end)
  (at level 10, x name, r at level 100, k at level 200, only parsing).

(** Lines 115-134: the body of the record loop of the API path. *)
Definition biopython_row (record : RawRecord) : result Row :=
  let ab := record_get record "AB" in
  try ab := re_sub ab in
  let ti := record_get record "TI" in
  try ti := re_sub ti in
  let pmid := record_get record "PMID" in
  let fau := record_get record "FAU" in
  let dp := record_get record "DP" in
  let mh := record_get record "MH" in
  let ot := record_get record "OT" in
  try pmid := int pmid in
  Ok {| pmid := pmid; ti := ti; ab := ab; fau := fau; dp := dp;
        mh := mh; ot := ot |}.

(** Lines 229-246: the body of the record loop of the local-tool path. *)
Definition edirect_row (record : RawRecord) : result Row :=
  let ab := record_get record "AB" in
  let ti := record_get record "TI" in
  let pmid := record_get record "PMID" in
  let aut := record_get record "FAU" in
  let dp := record_get record "DP" in
  let mh := record_get record "MH" in
  let ot := record_get record "OT" in
  try pmid := int pmid in
  Ok {| pmid := pmid; ti := ti; ab := ab; fau := aut; dp := dp;
        mh := mh; ot := ot |}.

(** [for record in records: ...; r.append(row)] *)
Fixpoint records_loop (row_of : RawRecord -> result Row)
    (records : list RawRecord) (r : list Row) : result (list Row) :=
  match records with
  | [] => Ok r
  | record :: rest =>
      try row := row_of record in
      records_loop row_of rest (r ++ [row])
  end.

(** ** The Entrez client and the world around a call *)

(** The module-level attributes of [Bio.Entrez] that the code writes. *)
Record Client : Type := mkClient {
  email : string;
  api_key : option string
}.

(** [Entrez.read] of the ESearch reply; [Count] after [int(...)]. *)
Record SearchResults : Type := mkSearchResults {
  Count : Z;
  WebEnv : string;
  QueryKey : string
}.

(** The keyword arguments of [Entrez.efetch] at lines 100-108. *)
Record FetchRequest : Type := mkFetchRequest {
  db : string;
  rettype : string;
  retmode : string;
  retstart : Z;
  retmax : Z;
  webenv : string;
  query_key : string
}.

Inductive reply (A : Type) : Type :=
| Served (a : A)
| Failed (e : string).
Arguments Served {A} a.
Arguments Failed {A} e.

(** The remote service: what ESearch and EFetch answer, given the
    credentials in force and the request. *)
Record Service : Type := mkService {
  esearch_reply : Client -> string -> reply SearchResults;
  efetch_reply : Client -> FetchRequest -> reply (list RawRecord)
}.

(** The shell pipeline of the local-tool path, by platform branch, with
    the key exported to it (if any). *)
Inductive command : Type :=
| LinuxPipeline (query : string) (ncbi_api_key : option string)
| WslPipeline (query : string) (ncbi_api_key : option string).

(** The host of the local-tool path: whether the edirect folder exists,
    [platform.system()], and the records [Medline.parse] reads from the
    output of [subprocess.check_output]. *)
Record Host : Type := mkHost {
  edirect_isdir : bool;
  platform_system : string;
  check_output : command -> reply (list RawRecord)
}.

Inductive message : Type :=
| MsgTerm (term : string)
| MsgDownloading (start stop count : Z)
| MsgDone
| MsgDownloadingData
| MsgCmd (platform query : string)
| MsgExtracting
| MsgWriting.

(** What a call does to the outside, in order. *)
Inductive event : Type :=
| Print (m : message)
| ESearch (term : string)
| EFetch (rq : FetchRequest)
| Sleep (seconds : Z)
| Subprocess (cmd : command).

(** A computation reads and writes the client, emits events and returns
    a value or raises. *)
Definition M (A : Type) : Type := Client -> Client * list event * result A.

Definition ret {A} (a : A) : M A := fun c => (c, [], Ok a).

Definition raise {A} (e : exn) : M A := fun c => (c, [], Err e).

Definition bind {A B} (m : M A) (k : A -> M B) : M B :=
  fun c =>
    match m c with
    | (c1, t1, Ok a) =>
        match k a c1 with
        | (c2, t2, r) => (c2, t1 ++ t2, r)
        end
    | (c1, t1, Err e) => (c1, t1, Err e)
    end.

Notation "'let*' x := m 'in' k" :=
  (bind m (fun x => k))
  (at level 10, x name, m at level 100, k at level 200, only parsing).
Notation "m ;; k" :=
  (bind m (fun _ => k))
  (at level 100, k at level 200, right associativity, only parsing).

Definition lift {A} (r : result A) : M A := fun c => (c, [], r).

Definition emit (e : event) : M unit := fun c => (c, [e], Ok tt).

Definition when (b : bool) (m : M unit) : M unit := if b then m else ret tt.

Definition print (m : message) : M unit := emit (Print m).

Definition sleep (seconds : Z) : M unit := emit (Sleep seconds).

Definition set_email (e : string) : M unit :=
  fun c => ({| email := e; api_key := api_key c |}, [], Ok tt).

Definition set_api_key (k : string) : M unit :=
  fun c => ({| email := email c; api_key := Some k |}, [], Ok tt).

Definition of_reply {A} (r : reply A) : result A :=
  match r with
  | Served a => Ok a
  | Failed e => Err (TransportError e)
  end.

Definition client_of {A} (x : Client * list event * result A) : Client :=
  fst (fst x).
Definition events_of {A} (x : Client * list event * result A) : list event :=
  snd (fst x).
Definition result_of {A} (x : Client * list event * result A) : result A :=
  snd x.

(** ** The API path *)

Section Biopython.

Variable service : Service.

Definition Entrez_esearch (term : string) : M SearchResults :=
  fun c => (c, [ESearch term], of_reply (esearch_reply service c term)).

Definition Entrez_efetch (rq : FetchRequest) : M (list RawRecord) :=
  fun c => (c, [EFetch rq], of_reply (efetch_reply service c rq)).

Definition fetch_request (search_results : SearchResults)
    (start batch_size : Z) : FetchRequest :=
  {| db := "pubmed"; rettype := "medline"; retmode := "text";
     retstart := start; retmax := batch_size;
     webenv := WebEnv search_results;
     query_key := QueryKey search_results |}.

(** Lines 96-141: the iterations of the batch loop, over the starts that
    the range yields. *)
Fixpoint pager_loop (search_results : SearchResults) (count batch_size : Z)
    (verbose : bool) (starts : list Z) (r : list Row) : M (list Row) :=
  match starts with
  | [] => ret r
  | start :: rest =>
      when verbose
        (print (MsgDownloading start (Z.min (start + batch_size) count) count)) ;;
      let* records_medline :=
        Entrez_efetch (fetch_request search_results start batch_size) in
      let* r := lift (records_loop biopython_row records_medline r) in
      when (start + batch_size <? count) (sleep 3) ;;
      pager_loop search_results count batch_size verbose rest r
  end.

(** Lines 93-141: [r=[]] and [for start in range(0, count, batch_size)]. *)
Definition pager (search_results : SearchResults) (count batch_size : Z)
    (verbose : bool) : M (list Row) :=
  let* starts := lift (Py.range 0 count batch_size) in
  pager_loop search_results count batch_size verbose starts [].

(** Lines 42-146. *)
Definition pubmed_search_biopython (term : string) (email : string)
    (api_key : option string) (batch_size : Z) (verbose : bool) : M Table :=
  set_email email ;;
  when (Py.truthy api_key) (set_api_key (default "" api_key)) ;;
  when verbose (print (MsgTerm term)) ;;
  let* search_results := Entrez_esearch term in
  let count := Count search_results in
  if count >? 10000 then raise (ResultSetTooLarge count)
  else
    let* r := pager search_results count batch_size verbose in
    print MsgDone ;;
    let result := r in
    ret result.

End Biopython.

(** ** The local-tool path *)

Section Edirect.

Variable host : Host.

Definition subprocess_check_output (cmd : command) : M (list RawRecord) :=
  fun c => (c, [Subprocess cmd], of_reply (check_output host cmd)).

(** Lines 148-256.  The command strings are kept as their parts: the
    platform branch, the query and the key handed to the tool. *)
Definition pubmed_search_edirect (query : string) (api_key : option string)
    : M Table :=
  if negb (edirect_isdir host) then raise ImportError
  else
    print MsgDownloadingData ;;
    let key := if Py.truthy api_key then api_key else None in
    let* medline_record :=
      (if String.eqb (platform_system host) "Linux" then
         print (MsgCmd "Linux" query) ;;
         subprocess_check_output (LinuxPipeline query key)
       else if String.eqb (platform_system host) "Windows" then
         print (MsgCmd "Windows" query) ;;
         subprocess_check_output (WslPipeline query key)
       else raise (UnsupportedSystem (platform_system host))) in
    print MsgExtracting ;;
    let* result := lift (records_loop edirect_row medline_record []) in
    print MsgWriting ;;
    print MsgDone ;;
    ret result.

End Edirect.

(** ** Vocabulary of the properties *)

(** The client once lines 75-78 have run. *)
Definition credentials (address : string) (key : option string)
    (c : Client) : Client :=
  {| email := address;
     api_key := if Py.truthy key then key else api_key c |}.

(** The rows one batch contributes: the reply to its request, parsed. *)
Definition batch_rows (service : Service) (c : Client)
    (search_results : SearchResults) (batch_size start : Z)
    : result (list Row) :=
  try records :=
    of_reply (efetch_reply service c
                (fetch_request search_results start batch_size)) in
  records_loop biopython_row records [].

Definition rows_or_nil (r : result (list Row)) : list Row :=
  match r with Ok rows => rows | Err _ => [] end.

(** Projections of a trace. *)
Definition fetches (t : list event) : list FetchRequest :=
  omap (fun e => match e with EFetch rq => Some rq | _ => None end) t.

Definition sleeps (t : list event) : list Z :=
  omap (fun e => match e with Sleep n => Some n | _ => None end) t.

Definition searches (t : list event) : list string :=
  omap (fun e => match e with ESearch q => Some q | _ => None end) t.

(** The windows the progress messages announce, as [(start, size)]. *)
Definition announced (t : list event) : list (Z * Z) :=
  omap (fun e => match e with
                 | Print (MsgDownloading start stop _) => Some (start, stop - start)
                 | _ => None
                 end) t.

(** The [(start, size)] pair a fetch request carries. *)
Definition carried (rq : FetchRequest) : Z * Z := (retstart rq, retmax rq).

(** The window of the result set a batch addresses, as the progress
    message of line 97 reports it: from [start] up to
    [min(start + batch_size, count)]. *)
Definition window (count batch_size start : Z) : Z * Z :=
  (start, Z.min (start + batch_size) count - start).

(** The events of one batch that runs to its end. *)
Definition batch_events (search_results : SearchResults)
    (count batch_size : Z) (verbose : bool) (start : Z) : list event :=
  (if verbose
   then [Print (MsgDownloading start (Z.min (start + batch_size) count) count)]
   else [])
  ++ [EFetch (fetch_request search_results start batch_size)]
  ++ (if start + batch_size <? count then [Sleep 3] else []).

(** The events of a batch up to and including its fetch. *)
Definition batch_request_events (search_results : SearchResults)
    (count batch_size : Z) (verbose : bool) (start : Z) : list event :=
  (if verbose
   then [Print (MsgDownloading start (Z.min (start + batch_size) count) count)]
   else [])
  ++ [EFetch (fetch_request search_results start batch_size)].

(** The events before the loop. *)
Definition header (term : string) (verbose : bool) : list event :=
  (if verbose then [Print (MsgTerm term)] else []) ++ [ESearch term].

(** [pieces] laid end to end with [pause] between consecutive ones. *)
Fixpoint interleave (pieces : list (list event)) (pause : event)
    : list event :=
  match pieces with
  | [] => []
  | [p] => p
  | p :: rest => p ++ pause :: interleave rest pause
  end.

(** [tiles lo hi ws]: the [(start, size)] pairs [ws], in order, are
    non-empty, each starts where the previous one ends, the first at [lo],
    and the last ends at [hi]. *)
Fixpoint tiles (lo hi : Z) (ws : list (Z * Z)) : Prop :=
  match ws with
  | [] => lo = hi
  | (start, size) :: rest => start = lo /\ 0 < size /\ tiles (lo + size) hi rest
  end.

(** The starts [lo], [lo + step], ... of [n] consecutive batches. *)
Fixpoint starts_from (lo step : Z) (n : nat) : list Z :=
  match n with
  | O => []
  | S n' => lo :: starts_from (lo + step) step n'
  end.

(** Ceiling of [a / b] for positive [b]. *)
Definition ceil_div (a b : Z) : Z := (a + b - 1) / b.

(** Whitespace collapsing as the data model words it: the string is cut
    into maximal runs of whitespace and of other characters, and every
    whitespace run becomes a single space. *)
Fixpoint runs (s : string) : list (bool * string) :=
  match s with
  | EmptyString => []
  | String c t =>
      match runs t with
      | (b, r) :: rest =>
          if Bool.eqb b (Py.is_space c) then (b, String c r) :: rest
          else (Py.is_space c, String c EmptyString) :: (b, r) :: rest
      | [] => [(Py.is_space c, String c EmptyString)]
      end
  end.

(** [s] without its leading whitespace. *)
Fixpoint skip_spaces (s : string) : string :=
  match s with
  | EmptyString => EmptyString
  | String c t => if Py.is_space c then skip_spaces t else s
  end.

Definition collapse_run (run : bool * string) : string :=
  if fst run then " " else snd run.

Fixpoint concat_strings (l : list string) : string :=
  match l with
  | [] => EmptyString
  | s :: rest => s +:+ concat_strings rest
  end.

Definition collapse_whitespace (s : string) : string :=
  concat_strings (List.map collapse_run (runs s)).

(** The identifier tag is absent, or holds a string [int] rejects. *)
Definition pmid_rejected (record : RawRecord) : Prop :=
  record !! "PMID" = None \/
  exists s, record !! "PMID" = Some (VStr s) /\
            Py.int_of_str s = Err (ValueError IntLiteral).

(** The title and the abstract, where present, are strings (as
    [Medline.parse] yields them). *)
Definition text_tags_scalar (record : RawRecord) : Prop :=
  (exists t, record_get record "TI" = VStr t) /\
  (exists a, record_get record "AB" = VStr a).

(** ** Fixtures *)

Definition fresh_client : Client := {| email := ""; api_key := None |}.

Definition title_record : RawRecord :=
  <[ "PMID" := VStr "31452104" ]>
  (<[ "TI" := VStr ("Foo" +:+ String "010" (String "009" "Bar")) ]>
  (<[ "FAU" := VList ["Machado, Diogo"] ]> ∅)).

Definition spaced_title_record : RawRecord :=
  <[ "PMID" := VStr "31452104" ]> (<[ "TI" := VStr "Foo  Bar" ]> ∅).

Definition untagged_record : RawRecord :=
  <[ "TI" := VStr "No identifier" ]> ∅.

(** A service that reports [count] matches and serves [records] to every
    fetch. *)
Definition constant_service (count : Z) (records : list RawRecord) : Service :=
  {| esearch_reply := fun _ _ =>
       Served {| Count := count; WebEnv := "MCID_1"; QueryKey := "1" |};
     efetch_reply := fun _ _ => Served records |}.

(** A service whose fetch at offset [bad] fails. *)
Definition flaky_service (count bad : Z) (records : list RawRecord) : Service :=
  {| esearch_reply := fun _ _ =>
       Served {| Count := count; WebEnv := "MCID_1"; QueryKey := "1" |};
     efetch_reply := fun _ rq =>
       if retstart rq =? bad then Failed "HTTP Error 429"
       else Served records |}.

Definition linux_host (records : list RawRecord) : Host :=
  {| edirect_isdir := true; platform_system := "Linux";
     check_output := fun _ => Served records |}.


(** ** The Windows branch: the path handed to WSL *)

(** The class [\w] of [re] on [str] patterns, for code points below 256. *)
Definition is_word (c : ascii) : bool :=
  let n := Py.code c in
  ((48 <=? n) && (n <=? 57) || (65 <=? n) && (n <=? 90) || (n =? 95)
   || (97 <=? n) && (n <=? 122) || (n =? 170) || (n =? 178) || (n =? 179)
   || (n =? 181) || (n =? 185) || (n =? 186) || (188 <=? n) && (n <=? 190)
   || (192 <=? n) && (n <=? 214) || (216 <=? n) && (n <=? 246)
   || (248 <=? n))%N.

(** [c.lower()] for a code point below 256. *)
Definition lower (c : ascii) : ascii :=
  let n := Py.code c in
  if ((65 <=? n) && (n <=? 90) || (192 <=? n) && (n <=? 214)
      || (216 <=? n) && (n <=? 222))%N
  then ascii_of_N (n + 32)
  else c.

Definition backslash : ascii := "092".

(** [re.sub('\\\\', '/', s)]: every backslash becomes a slash. *)
Fixpoint slashes (s : string) : string :=
  match s with
  | EmptyString => EmptyString
  | String c t => String (if Ascii.eqb c backslash then "/" else c) (slashes t)
  end.

(** [re.sub('^(\w)\:\\\\', lambda match: '/mnt/' + match.group(1).lower()
    + '/', s)]: a drive prefix at the very start is rewritten. *)
Definition mount_drive (s : string) : string :=
  match s with
  | String d (String ":" (String sep rest)) =>
      if is_word d && Ascii.eqb sep backslash
      then "/mnt/" +:+ String (lower d) (String "/" rest)
      else s
  | _ => s
  end.

(** Lines 203-204: the edirect directory in WSL format. *)
Definition wsl_path (edirect_path : string) : string :=
  slashes (mount_drive edirect_path).

(** ** Further vocabulary *)

(** The branch of lines 184-222 that the host selects: the platform name
    and the pipeline, or nothing on an unsupported system. *)
Definition edirect_command (host : Host) (query : string)
    (key : option string) : option (string * command) :=
  let key := if Py.truthy key then key else None in
  if String.eqb (platform_system host) "Linux"
  then Some ("Linux", LinuxPipeline query key)
  else if String.eqb (platform_system host) "Windows"
       then Some ("Windows", WslPipeline query key)
       else None.

(** The records a fetch request is served. *)
Definition served (service : Service) (c : Client) (rq : FetchRequest)
    : list RawRecord :=
  match efetch_reply service c rq with
  | Served records => records
  | Failed _ => []
  end.

(** The key a pipeline exports to the tool, and the query it runs. *)
Definition exported_key (cmd : command) : option string :=
  match cmd with
  | LinuxPipeline _ k => k
  | WslPipeline _ k => k
  end.

Definition pipeline_query (cmd : command) : string :=
  match cmd with
  | LinuxPipeline q _ => q
  | WslPipeline q _ => q
  end.


Definition is_print (e : event) : bool :=
  match e with Print _ => true | _ => false end.

(** A trace without its messages. *)
Definition quiet (t : list event) : list event :=
  List.filter (fun e => negb (is_print e)) t.

(** The messages of a trace. *)
Definition printed (t : list event) : list message :=
  omap (fun e => match e with Print m => Some m | _ => None end) t.

(** [s] has no whitespace character but the space, and no two spaces in a
    row; [prev] tells whether the previous character was a space. *)
Fixpoint single_spaced_from (prev : bool) (s : string) : bool :=
  match s with
  | EmptyString => true
  | String c t =>
      if Py.is_space c
      then Ascii.eqb c " " && negb prev && single_spaced_from true t
      else single_spaced_from false t
  end.

Definition single_spaced (s : string) : bool := single_spaced_from false s.

Definition tidy (v : value) : Prop :=
  exists s, v = VStr s /\ single_spaced s = true.

(** The number a string of decimal digits writes. *)
Fixpoint decimal_from (acc : Z) (s : string) : Z :=
  match s with
  | EmptyString => acc
  | String c t => decimal_from (10 * acc + Py.digit_value c) t
  end.

Definition decimal (s : string) : Z := decimal_from 0 s.

Fixpoint all_digits (s : string) : bool :=
  match s with
  | EmptyString => true
  | String c t => Py.is_digit c && all_digits t
  end.


(** ** Python builtins: facts *)

Example range_2500 : Py.range 0 2500 1000 = Ok [0; 1000; 2000].
Proof. reflexivity. Qed.

Example range_negative_step : Py.range 0 5 (-1) = Ok [].
Proof. reflexivity. Qed.

Example range_zero_step : Py.range 0 5 0 = Err (ValueError RangeStep).
Proof. reflexivity. Qed.

Example int_examples :
  Py.int_of_str " 12 " = Ok 12 /\ Py.int_of_str "-5" = Ok (-5) /\
  Py.int_of_str "1_000" = Ok 1000 /\ Py.int_of_str "007" = Ok 7 /\
  Py.int_of_str "" = Err (ValueError IntLiteral) /\
  Py.int_of_str "1__0" = Err (ValueError IntLiteral) /\
  Py.int_of_str "12 3" = Err (ValueError IntLiteral) /\
  Py.int_of_str "- 5" = Err (ValueError IntLiteral).
Proof. repeat split; reflexivity. Qed.

(** [ceil_div] is the ceiling: the least [n] with [a <= n * b]. *)
Lemma ceil_div_spec (a b : Z) :
  0 < b -> (ceil_div a b - 1) * b < a <= ceil_div a b * b.
Proof.
  intros Hb. unfold ceil_div.
  pose proof (Z.div_mod (a + b - 1) b ltac:(lia)) as Hdm.
  pose proof (Z.mod_pos_bound (a + b - 1) b Hb) as Hm.
  nia.
Qed.

Lemma ceil_div_unique (a b n : Z) :
  0 < b -> (n - 1) * b < a <= n * b -> ceil_div a b = n.
Proof.
  intros Hb Hn. pose proof (ceil_div_spec a b Hb) as Hc. nia.
Qed.

Lemma range_length_ceil (count step : Z) :
  0 <= count -> 0 < step -> Py.range_length 0 count step = ceil_div count step.
Proof.
  intros Hc Hs. unfold Py.range_length.
  destruct (Z.ltb_spec 0 step) as [_|]; [|lia].
  symmetry. destruct (Z.ltb_spec 0 count) as [Hpos|Hzero].
  - apply ceil_div_unique; [lia|].
    pose proof (Z.div_mod (count - 0 - 1) step ltac:(lia)) as Hdm.
    pose proof (Z.mod_pos_bound (count - 0 - 1) step Hs) as Hm.
    nia.
  - apply ceil_div_unique; lia.
Qed.

Lemma starts_from_map (lo step : Z) (n : nat) :
  List.map (fun i : nat => lo + Z.of_nat i * step) (List.seq 0 n)
  = starts_from lo step n.
Proof.
  revert lo. induction n as [|n IH]; intros lo; [reflexivity|].
  cbn [List.seq List.map starts_from]. f_equal; [lia|].
  rewrite <- IH, <- List.seq_shift, List.map_map.
  apply List.map_ext. intros i. lia.
Qed.

Lemma starts_from_length (lo step : Z) (n : nat) :
  length (starts_from lo step n) = n.
Proof. revert lo. induction n; intros; cbn; auto. Qed.

Lemma range_starts (count step : Z) :
  step <> 0 ->
  Py.range 0 count step
  = Ok (starts_from 0 step (Z.to_nat (Py.range_length 0 count step))).
Proof.
  intros Hs. unfold Py.range.
  destruct (Z.eqb_spec step 0); [contradiction|].
  now rewrite starts_from_map.
Qed.

Lemma range_negative (count step : Z) :
  0 <= count -> step < 0 -> Py.range 0 count step = Ok [].
Proof.
  intros Hc Hs. rewrite range_starts by lia. unfold Py.range_length.
  destruct (Z.ltb_spec 0 step); [lia|].
  destruct (Z.ltb_spec count 0); [lia|]. reflexivity.
Qed.

(** ** The record loop *)

Lemma records_loop_acc (row_of : RawRecord -> result Row)
    (records : list RawRecord) (r : list Row) :
  records_loop row_of records r
  = try rows := records_loop row_of records [] in Ok (r ++ rows).
Proof.
  revert r. induction records as [|record rest IH]; intros r; cbn.
  - now rewrite List.app_nil_r.
  - destruct (row_of record) as [row|e]; [|reflexivity].
    rewrite (IH (r ++ [row])), (IH [row]).
    destruct (records_loop row_of rest []) as [rows|e]; [|reflexivity].
    now rewrite <- List.app_assoc.
Qed.

(** The loop succeeds exactly when every record yields a row. *)
Lemma records_loop_ok (row_of : RawRecord -> result Row)
    (records : list RawRecord) (r rows : list Row) :
  records_loop row_of records r = Ok rows ->
  forall record, In record records -> is_ok (row_of record) = true.
Proof.
  revert r. induction records as [|x rest IH]; intros r Hok record Hin.
  - destruct Hin.
  - cbn in Hok. destruct (row_of x) as [row|e] eqn:Hx; [|discriminate].
    destruct Hin as [->|Hin]; [now rewrite Hx|]. eapply IH; eauto.
Qed.

Lemma records_loop_length (row_of : RawRecord -> result Row)
    (records : list RawRecord) (r rows : list Row) :
  records_loop row_of records r = Ok rows ->
  length rows = (length r + length records)%nat.
Proof.
  revert r. induction records as [|x rest IH]; intros r Hok; cbn in Hok.
  - injection Hok as <-. cbn. lia.
  - destruct (row_of x) as [row|e]; [|discriminate].
    apply IH in Hok. rewrite List.length_app in Hok. cbn in *. lia.
Qed.

(** ** The batch loop *)

Section PagerFacts.

Variable service : Service.
Variable search_results : SearchResults.
Variables count batch_size : Z.
Variable verbose : bool.

Let rows_at (c : Client) (start : Z) : result (list Row) :=
  batch_rows service c search_results batch_size start.
Let events_at : Z -> list event :=
  batch_events search_results count batch_size verbose.
Let request_events_at : Z -> list event :=
  batch_request_events search_results count batch_size verbose.
Let loop := pager_loop service search_results count batch_size verbose.

(** One iteration: a batch that fails stops the loop right after its
    fetch; a batch that succeeds appends its rows and goes on. *)
Lemma pager_loop_step (start : Z) (rest : list Z) (r : list Row) (c : Client) :
  loop (start :: rest) r c
  = match rows_at c start with
    | Ok rows =>
        match loop rest (r ++ rows) c with
        | (c', t, res) => (c', events_at start ++ t, res)
        end
    | Err e => (c, request_events_at start, Err e)
    end.
Proof.
  unfold loop, rows_at, events_at, request_events_at, batch_rows,
    batch_events, batch_request_events.
  cbn [pager_loop]. unfold bind, when, print, sleep, emit, ret, lift,
    Entrez_efetch.
  destruct verbose; cbn [List.app];
    (destruct (efetch_reply service c _) as [records|e]; cbn [of_reply];
     [|reflexivity]);
    rewrite (records_loop_acc biopython_row records r);
    (destruct (records_loop biopython_row records []) as [rows|e];
     [|reflexivity]);
    destruct (start + batch_size <? count);
    destruct (pager_loop _ _ _ _ _ rest (r ++ rows) c) as [[c' t] res];
    reflexivity.
Qed.

(** The loop never touches the client. *)
Lemma pager_loop_client (starts : list Z) (r : list Row) (c : Client) :
  client_of (loop starts r c) = c.
Proof.
  revert r. induction starts as [|start rest IH]; intros r; [reflexivity|].
  rewrite pager_loop_step. destruct (rows_at c start) as [rows|e]; [|reflexivity].
  specialize (IH (r ++ rows)).
  destruct (loop rest (r ++ rows) c) as [[c' t] res]. exact IH.
Qed.

(** All batches succeed: every batch runs to its end and the rows come
    out in fetch order. *)
Lemma pager_loop_ok (starts : list Z) (r : list Row) (c : Client) :
  Forall (fun start => is_ok (rows_at c start) = true) starts ->
  loop starts r c
  = (c, flat_map events_at starts,
     Ok (r ++ flat_map (fun start => rows_or_nil (rows_at c start)) starts)).
Proof.
  revert r. induction starts as [|start rest IH]; intros r Hall.
  - cbn. now rewrite List.app_nil_r.
  - inversion Hall as [|? ? Hstart Hrest]; subst.
    rewrite pager_loop_step.
    destruct (rows_at c start) as [rows|e] eqn:Hrows; [|discriminate].
    rewrite (IH (r ++ rows) Hrest). cbn [flat_map]. rewrite Hrows. cbn.
    now rewrite <- List.app_assoc.
Qed.

(** The first failing batch: the loop ends with its fetch and raises. *)
Lemma pager_loop_fail (pre post : list Z) (start : Z) (e : exn)
    (r : list Row) (c : Client) :
  Forall (fun s => is_ok (rows_at c s) = true) pre ->
  rows_at c start = Err e ->
  loop (pre ++ start :: post) r c
  = (c, flat_map events_at pre ++ request_events_at start, Err e).
Proof.
  revert r. induction pre as [|s pre IH]; intros r Hall Hfail.
  - cbn [List.app flat_map]. rewrite pager_loop_step, Hfail. reflexivity.
  - inversion Hall as [|? ? Hs Hpre]; subst.
    cbn [List.app]. rewrite pager_loop_step.
    destruct (rows_at c s) as [rows|e'] eqn:Hrows; [|discriminate].
    rewrite (IH (r ++ rows) Hpre Hfail). cbn [flat_map].
    now rewrite <- List.app_assoc.
Qed.

(** Every run of the loop has one of the two shapes. *)
Lemma first_failure (c : Client) (starts : list Z) :
  Forall (fun s => is_ok (rows_at c s) = true) starts \/
  exists pre start post e,
    starts = pre ++ start :: post /\
    Forall (fun s => is_ok (rows_at c s) = true) pre /\
    rows_at c start = Err e.
Proof.
  induction starts as [|s rest IH]; [left; constructor|].
  destruct (rows_at c s) as [rows|e] eqn:Hs.
  - destruct IH as [Hall|(pre & start & post & e & -> & Hpre & Hfail)].
    + left. constructor; [now rewrite Hs|assumption].
    + right. exists (s :: pre), start, post, e. repeat split; auto.
      constructor; [now rewrite Hs|assumption].
  - right. exists [], s, rest, e. repeat split; auto.
Qed.

End PagerFacts.

(** ** Traces *)

Lemma fetches_app (t u : list event) : fetches (t ++ u) = fetches t ++ fetches u.
Proof. apply omap_app. Qed.

Lemma sleeps_app (t u : list event) : sleeps (t ++ u) = sleeps t ++ sleeps u.
Proof. apply omap_app. Qed.

Lemma searches_app (t u : list event) :
  searches (t ++ u) = searches t ++ searches u.
Proof. apply omap_app. Qed.

Lemma announced_app (t u : list event) :
  announced (t ++ u) = announced t ++ announced u.
Proof. apply omap_app. Qed.

Section TraceFacts.

Variable search_results : SearchResults.
Variables count batch_size : Z.
Variable verbose : bool.

Let events_at := batch_events search_results count batch_size verbose.
Let request_events_at :=
  batch_request_events search_results count batch_size verbose.

Lemma batch_events_split (start : Z) :
  events_at start
  = request_events_at start
    ++ (if start + batch_size <? count then [Sleep 3] else []).
Proof.
  unfold events_at, request_events_at, batch_events, batch_request_events.
  now rewrite <- List.app_assoc.
Qed.

Lemma fetches_batches (starts : list Z) :
  fetches (flat_map events_at starts)
  = List.map (fun start => fetch_request search_results start batch_size) starts.
Proof.
  induction starts as [|start rest IH]; [reflexivity|].
  cbn [flat_map List.map]. rewrite fetches_app, IH.
  unfold events_at, batch_events.
  destruct verbose, (start + batch_size <? count); reflexivity.
Qed.

Lemma fetches_request_events (start : Z) :
  fetches (request_events_at start)
  = [fetch_request search_results start batch_size].
Proof.
  unfold request_events_at, batch_request_events. destruct verbose; reflexivity.
Qed.

Lemma searches_batches (starts : list Z) :
  searches (flat_map events_at starts) = [].
Proof.
  induction starts as [|start rest IH]; [reflexivity|].
  cbn [flat_map]. rewrite searches_app, IH.
  unfold events_at, batch_events.
  destruct verbose, (start + batch_size <? count); reflexivity.
Qed.

Lemma searches_request_events (start : Z) :
  searches (request_events_at start) = [].
Proof.
  unfold request_events_at, batch_request_events. destruct verbose; reflexivity.
Qed.

Lemma sleeps_request_events (start : Z) : sleeps (request_events_at start) = [].
Proof.
  unfold request_events_at, batch_request_events. destruct verbose; reflexivity.
Qed.

Lemma sleeps_interleave (starts : list Z) :
  sleeps (interleave (List.map request_events_at starts) (Sleep 3))
  = List.repeat 3 (length starts - 1).
Proof.
  induction starts as [|start rest IH]; [reflexivity|].
  destruct rest as [|next rest].
  - cbn. apply sleeps_request_events.
  - change (sleeps (request_events_at start
                    ++ Sleep 3
                       :: interleave (List.map request_events_at (next :: rest))
                            (Sleep 3))
            = List.repeat 3 (length (start :: next :: rest) - 1)).
    rewrite sleeps_app, sleeps_request_events.
    change (sleeps (Sleep 3 :: ?t)) with (3 :: sleeps t).
    rewrite IH. cbn [length]. rewrite !Nat.sub_succ, !Nat.sub_0_r.
    reflexivity.
Qed.

Hypothesis step_positive : 0 < batch_size.

(** With [n] batches from [lo] that reach [count] and not further, the
    pause follows every batch but the last. *)
Lemma batches_interleave (n : nat) (lo : Z) :
  (n <> O ->
   lo + (Z.of_nat n - 1) * batch_size < count <= lo + Z.of_nat n * batch_size) ->
  flat_map events_at (starts_from lo batch_size n)
  = interleave (List.map request_events_at (starts_from lo batch_size n))
      (Sleep 3).
Proof.
  revert lo. induction n as [|m IH]; intros lo Hb; [reflexivity|].
  specialize (Hb ltac:(discriminate)).
  cbn [starts_from flat_map List.map]. rewrite batch_events_split.
  destruct m as [|k].
  - cbn [starts_from flat_map List.map interleave].
    destruct (Z.ltb_spec (lo + batch_size) count); [lia|].
    now rewrite !List.app_nil_r.
  - rewrite IH by (intros _; lia).
    destruct (Z.ltb_spec (lo + batch_size) count); [|nia].
    cbn [starts_from List.map interleave].
    now rewrite <- List.app_assoc.
Qed.

(** The same batches, clipped to [count], tile [lo, count). *)
Lemma batches_tile (n : nat) (lo : Z) :
  (n = O -> lo = count) ->
  (n <> O ->
   lo + (Z.of_nat n - 1) * batch_size < count <= lo + Z.of_nat n * batch_size) ->
  tiles lo count
    (List.map (window count batch_size) (starts_from lo batch_size n)).
Proof.
  revert lo. induction n as [|m IH]; intros lo Hz Hb.
  - cbn. auto.
  - specialize (Hb ltac:(discriminate)).
    cbn [starts_from List.map tiles window]. split; [reflexivity|].
    split; [nia|]. destruct m as [|k].
    + cbn. lia.
    + replace (lo + (Z.min (lo + batch_size) count - lo)) with (lo + batch_size)
        by nia.
      apply IH; [discriminate|intros _; lia].
Qed.

End TraceFacts.

(** What [tiles] means point by point: an offset lies in [lo, hi) exactly
    when one of the pairs contains it. *)
Lemma tiles_cover (ws : list (Z * Z)) (lo hi : Z) :
  tiles lo hi ws ->
  forall k, lo <= k < hi <->
            exists w, In w ws /\ fst w <= k < fst w + snd w.
Proof.
  revert lo. induction ws as [|[start size] rest IH]; intros lo Ht k; cbn in Ht.
  - subst. split; [lia|]. intros (w & [] & _).
  - destruct Ht as (-> & Hsize & Hrest). specialize (IH _ Hrest k).
    split.
    + intros Hk. destruct (Z.lt_ge_cases k (lo + size)) as [Hin|Hout].
      * exists (lo, size). cbn. split; [auto|lia].
      * destruct (proj1 IH ltac:(lia)) as (w & Hw & Hkw).
        exists w. split; [now right|assumption].
    + intros (w & [<-|Hw] & Hkw).
      * cbn in Hkw. assert (lo + size <= hi); [|lia].
        clear - Hrest Hsize. revert Hrest. generalize (lo + size).
        induction rest as [|[s n] rest IHr]; intros z Hz; cbn in Hz; [lia|].
        destruct Hz as (-> & Hn & Hz). apply IHr in Hz. lia.
      * assert (lo + size <= k < hi) by (apply IH; eauto). lia.
Qed.

(** ** The whole call *)

Section CallFacts.

Variable service : Service.

Lemma pager_run (search_results : SearchResults) (count batch_size : Z)
    (verbose : bool) (c : Client) :
  pager service search_results count batch_size verbose c
  = match Py.range 0 count batch_size with
    | Ok starts =>
        pager_loop service search_results count batch_size verbose starts [] c
    | Err e => (c, [], Err e)
    end.
Proof.
  unfold pager, bind, lift.
  destruct (Py.range 0 count batch_size) as [starts|e]; [|reflexivity].
  destruct (pager_loop _ _ _ _ _ starts [] c) as [[c' t] res]. reflexivity.
Qed.

Lemma pager_client (search_results : SearchResults) (count batch_size : Z)
    (verbose : bool) (c : Client) :
  client_of (pager service search_results count batch_size verbose c) = c.
Proof.
  rewrite pager_run. destruct (Py.range 0 count batch_size); [|reflexivity].
  apply pager_loop_client.
Qed.

(** The call, spelled out: credentials, search, ceiling check, pager,
    and the final message. *)
Lemma pubmed_search_biopython_run (term address : string)
    (key : option string) (batch_size : Z) (verbose : bool) (c : Client) :
  pubmed_search_biopython service term address key batch_size verbose c
  = let c' := credentials address key c in
    match esearch_reply service c' term with
    | Failed e => (c', header term verbose, Err (TransportError e))
    | Served search_results =>
        if Count search_results >? 10000
        then (c', header term verbose,
              Err (ResultSetTooLarge (Count search_results)))
        else
          match pager service search_results (Count search_results)
                  batch_size verbose c' with
          | (c2, t, Ok r) => (c2, header term verbose ++ t ++ [Print MsgDone], Ok r)
          | (c2, t, Err e) => (c2, header term verbose ++ t, Err e)
          end
    end.
Proof.
  unfold pubmed_search_biopython, credentials, header.
  unfold bind, set_email, set_api_key, when, print, emit, ret, raise,
    Entrez_esearch.
  destruct key as [k|]; cbn [Py.truthy default id];
    [destruct (negb (String.eqb k ""))|];
    destruct verbose; cbn [email api_key List.app fst snd];
    (destruct (esearch_reply service _ term) as [sr|e]; cbn [of_reply];
     [|reflexivity]);
    (destruct (Count sr >? 10000); [reflexivity|]);
    destruct (pager service sr (Count sr) batch_size _ _) as [[c2 t] [r|e]];
    cbn [List.app]; rewrite ?List.app_nil_r; reflexivity.
Qed.

End CallFacts.

(** ** The pager's batches *)

Lemma announced_batches (search_results : SearchResults)
    (count batch_size : Z) (starts : list Z) :
  announced (flat_map (batch_events search_results count batch_size true) starts)
  = List.map (window count batch_size) starts.
Proof.
  induction starts as [|start rest IH]; [reflexivity|].
  cbn [flat_map List.map]. rewrite announced_app, IH.
  unfold batch_events. destruct (start + batch_size <? count); reflexivity.
Qed.

Lemma range_batches (count batch_size : Z) :
  0 <= count -> 0 < batch_size ->
  let n := Z.to_nat (ceil_div count batch_size) in
  Py.range 0 count batch_size = Ok (starts_from 0 batch_size n) /\
  Z.of_nat n = ceil_div count batch_size /\
  (n = O -> 0 = count) /\
  (n <> O ->
   0 + (Z.of_nat n - 1) * batch_size < count <= 0 + Z.of_nat n * batch_size).
Proof.
  intros Hc Hs n. subst n.
  pose proof (ceil_div_spec count batch_size Hs) as Hceil.
  assert (0 <= ceil_div count batch_size) as Hnn by nia.
  rewrite range_starts, range_length_ceil by lia.
  rewrite Z2Nat.id by assumption.
  repeat split; lia.
Qed.

(** Against C1 as stated.  At count 2500 and batch size 1000 the three
    fetch requests carry
    [(0, 1000)], [(1000, 1000)] and [(2000, 1000)]: the size of the last
    one is the batch size, not [min(1000, 2500 - 2000)]. *)
Lemma last_request_not_clipped :
  let run :=
    pubmed_search_biopython (constant_service 2500 [])
      "cancer" "" None 1000 false fresh_client in
  List.map carried (fetches (events_of run))
  = [(0, 1000); (1000, 1000); (2000, 1000)] /\
  ~ Forall (fun b => snd b = Z.min 1000 (2500 - fst b))
      (List.map carried (fetches (events_of run))).
Proof.
  split; [reflexivity|].
  intros Hall. rewrite List.Forall_forall in Hall.
  specialize (Hall (2000, 1000)). cbn in Hall.
  assert (1000 = 500) as Habs; [|discriminate Habs].
  apply Hall. right. right. left. reflexivity.
Qed.

(** C1 (amended).  For every count >= 0 and batch size > 0 the pager's
    batches start at 0, batch_size, 2 * batch_size, ... below count; their
    windows clipped to count (the ones the progress message announces) are
    contiguous, non-overlapping and exactly cover [0, count), each of size
    min(batch_size, count - start); the fetch request of every batch
    carries the start and the full batch size; count = 0 gives no batch and
    no fetch. *)
Theorem pager_batches (count batch_size : Z) :
  0 <= count -> 0 < batch_size ->
  exists starts,
    Py.range 0 count batch_size = Ok starts /\
    tiles 0 count (List.map (window count batch_size) starts) /\
    Forall (fun start =>
              snd (window count batch_size start)
              = Z.min batch_size (count - start)) starts /\
    (count = 0 -> starts = []) /\
    forall service search_results verbose c,
      (forall start,
         is_ok (batch_rows service c search_results batch_size start) = true) ->
      let t :=
        events_of (pager service search_results count batch_size verbose c) in
      List.map carried (fetches t)
      = List.map (fun start => (start, batch_size)) starts /\
      (verbose = true ->
       announced t = List.map (window count batch_size) starts) /\
      (count = 0 -> fetches t = []).
Proof.
  intros Hc Hs.
  destruct (range_batches count batch_size Hc Hs) as (Hrange & Hn & Hz & Hb).
  set (n := Z.to_nat (ceil_div count batch_size)) in *.
  exists (starts_from 0 batch_size n). split; [exact Hrange|].
  split; [apply batches_tile; auto|].
  split; [apply List.Forall_forall; intros start _; cbn; lia|].
  assert (count = 0 -> starts_from 0 batch_size n = []) as Hempty.
  { intros ->. destruct n; [reflexivity|]. specialize (Hb ltac:(discriminate)).
    nia. }
  split; [exact Hempty|].
  intros service sr verbose c Hok t. subst t.
  rewrite pager_run, Hrange, pager_loop_ok
    by (apply List.Forall_forall; intros; apply Hok).
  cbn [events_of fst snd]. rewrite fetches_batches, List.map_map.
  split; [reflexivity|]. split.
  - intros ->. apply announced_batches.
  - intros Hzero. now rewrite (Hempty Hzero).
Qed.

Lemma pager_batches_witness :
  exists starts,
    Py.range 0 2500 1000 = Ok starts /\
    tiles 0 2500 (List.map (window 2500 1000) starts).
Proof.
  destruct (pager_batches 2500 1000 ltac:(lia) ltac:(lia))
    as (starts & Hrange & Htiles & _).
  exists starts. split; assumption.
Defined.

(** C4.  For every count >= 0 and batch size > 0, a pager run in which
    every batch is served and parsed issues ceil(count / batch_size)
    fetches and sleeps once less: its events are the batches' requests with
    one 3-second sleep between consecutive batches, none after the last
    and none at all when there is at most one batch. *)
Theorem pager_sleeps (service : Service) (search_results : SearchResults)
    (count batch_size : Z) (verbose : bool) (c : Client) :
  0 <= count -> 0 < batch_size ->
  (forall start,
     is_ok (batch_rows service c search_results batch_size start) = true) ->
  exists starts,
    Py.range 0 count batch_size = Ok starts /\
    Z.of_nat (length starts) = ceil_div count batch_size /\
    let t :=
      events_of (pager service search_results count batch_size verbose c) in
    t = interleave
          (List.map (batch_request_events search_results count batch_size verbose)
             starts)
          (Sleep 3) /\
    length (fetches t) = length starts /\
    sleeps t = List.repeat 3 (length starts - 1) /\
    (ceil_div count batch_size <= 1 -> sleeps t = []).
Proof.
  intros Hc Hs Hok.
  destruct (range_batches count batch_size Hc Hs) as (Hrange & Hn & _ & Hb).
  set (n := Z.to_nat (ceil_div count batch_size)) in *.
  exists (starts_from 0 batch_size n).
  split; [exact Hrange|]. rewrite starts_from_length. split; [exact Hn|].
  cbv zeta.
  rewrite pager_run, Hrange, pager_loop_ok
    by (apply List.Forall_forall; intros; apply Hok).
  cbn [events_of fst snd].
  split; [apply batches_interleave; assumption|].
  split; [now rewrite fetches_batches, List.length_map, starts_from_length|].
  rewrite batches_interleave, sleeps_interleave, starts_from_length
    by assumption.
  split; [reflexivity|].
  intros Hone. replace (n - 1)%nat with O by lia. reflexivity.
Qed.

Lemma pager_sleeps_witness :
  exists starts,
    Py.range 0 2500 1000 = Ok starts /\
    Z.of_nat (length starts) = ceil_div 2500 1000 /\
    sleeps (events_of
              (pager (constant_service 2500 [title_record])
                 {| Count := 2500; WebEnv := "MCID_1"; QueryKey := "1" |}
                 2500 1000 true fresh_client))
    = List.repeat 3 (length starts - 1).
Proof.
  destruct (pager_sleeps (constant_service 2500 [title_record])
              {| Count := 2500; WebEnv := "MCID_1"; QueryKey := "1" |}
              2500 1000 true fresh_client
              ltac:(lia) ltac:(lia) ltac:(intros; reflexivity))
    as (starts & Hrange & Hlen & _ & _ & Hsleeps & _).
  exists starts. repeat split; assumption.
Defined.

(** ** The errors of a batch *)

Lemma int_of_str_error (s : string) (e : exn) :
  Py.int_of_str s = Err e -> e = ValueError IntLiteral.
Proof.
  unfold Py.int_of_str.
  destruct (match Py.rstrip (Py.lstrip s) with
            | String "+" t => (1, t)
            | String "-" t => (-1, t)
            | _ => (1, Py.rstrip (Py.lstrip s))
            end) as [sign ds].
  destruct (Py.digits ds 0 false); [|congruence].
  destruct (_ <? _)%nat; congruence.
Qed.

Lemma biopython_row_error (record : RawRecord) (e : exn) :
  biopython_row record = Err e -> e = TypeError \/ e = ValueError IntLiteral.
Proof.
  unfold biopython_row, re_sub, int.
  destruct (record_get record "AB") as [a|?]; [|left; congruence].
  destruct (record_get record "TI") as [t|?]; [|left; congruence].
  destruct (record_get record "PMID") as [p|?]; [|left; congruence].
  destruct (Py.int_of_str p) as [n|e'] eqn:Hs; [discriminate|].
  intros Heq. injection Heq as <-. right. eapply int_of_str_error; eauto.
Qed.

Lemma records_loop_error (records : list RawRecord) (r : list Row) (e : exn) :
  records_loop biopython_row records r = Err e ->
  e = TypeError \/ e = ValueError IntLiteral.
Proof.
  revert r. induction records as [|record rest IH]; intros r Hfail;
    cbn in Hfail; [discriminate|].
  destruct (biopython_row record) as [row|e'] eqn:Hrow; [eauto|].
  injection Hfail as <-. eapply biopython_row_error; eauto.
Qed.

(** A batch fails with the transport error of its fetch or with the error
    of a record. *)
Lemma batch_rows_error (service : Service) (c : Client)
    (search_results : SearchResults) (batch_size start : Z) (e : exn) :
  batch_rows service c search_results batch_size start = Err e ->
  (exists msg, e = TransportError msg) \/
  e = TypeError \/ e = ValueError IntLiteral.
Proof.
  unfold batch_rows.
  destruct (efetch_reply service c _) as [records|msg]; cbn [of_reply].
  - intros Hfail. right. eapply records_loop_error; eauto.
  - intros Heq. injection Heq as <-. left. eauto.
Qed.

(** ** The ceiling on the result count *)

(** C2.  When the search reports more than 10,000 matches the call raises
    the too-large error at once, with no fetch and no sleep; when it
    reports at most 10,000 that error is not raised. *)
Theorem result_set_ceiling (service : Service) (term address : string)
    (key : option string) (batch_size : Z) (verbose : bool) (c : Client)
    (search_results : SearchResults) :
  esearch_reply service (credentials address key c) term
  = Served search_results ->
  let run :=
    pubmed_search_biopython service term address key batch_size verbose c in
  (10000 < Count search_results ->
   result_of run = Err (ResultSetTooLarge (Count search_results)) /\
   events_of run = header term verbose /\
   fetches (events_of run) = [] /\
   sleeps (events_of run) = []) /\
  (Count search_results <= 10000 ->
   forall n, result_of run <> Err (ResultSetTooLarge n)).
Proof.
  intros Hsearch run. subst run.
  rewrite pubmed_search_biopython_run. cbv zeta. rewrite Hsearch.
  split.
  - intros Hbig. destruct (Z.gtb_spec (Count search_results) 10000); [|lia].
    cbn [result_of events_of fst snd]. unfold header.
    destruct verbose; repeat split; reflexivity.
  - intros Hsmall n. destruct (Z.gtb_spec (Count search_results) 10000); [lia|].
    rewrite pager_run.
    destruct (Py.range 0 (Count search_results) batch_size) as [starts|e] eqn:Hr.
    + destruct (first_failure service search_results batch_size
                  (credentials address key c) starts)
        as [Hall|(pre & start & post & e & -> & Hpre & Hfail)].
      * rewrite (pager_loop_ok _ _ _ _ _ _ _ _ Hall). cbn. discriminate.
      * rewrite (pager_loop_fail _ _ _ _ _ _ _ _ _ _ _ Hpre Hfail). cbn.
        intros Heq. injection Heq as ->.
        destruct (batch_rows_error _ _ _ _ _ _ Hfail) as [[msg Hm]|[Hm|Hm]];
          discriminate Hm.
    + unfold Py.range in Hr. destruct (batch_size =? 0); [|discriminate].
      injection Hr as <-. cbn. discriminate.
Qed.

Lemma result_set_ceiling_witness :
  result_of
    (pubmed_search_biopython (constant_service 10001 [title_record])
       "cancer" "" None 1000 true fresh_client)
  = Err (ResultSetTooLarge 10001).
Proof.
  exact (proj1 (proj1 (result_set_ceiling (constant_service 10001 [title_record])
                         "cancer" "" None 1000 true fresh_client
                         {| Count := 10001; WebEnv := "MCID_1"; QueryKey := "1" |}
                         eq_refl)
                  ltac:(cbn; lia))).
Defined.

(** ** The continuation token pair *)

Lemma header_projections (term : string) (verbose : bool) :
  searches (header term verbose) = [term] /\
  fetches (header term verbose) = [] /\
  sleeps (header term verbose) = [].
Proof. unfold header. destruct verbose; repeat split; reflexivity. Qed.

Lemma client_after_call (service : Service) (term address : string)
    (key : option string) (batch_size : Z) (verbose : bool) (c : Client) :
  client_of
    (pubmed_search_biopython service term address key batch_size verbose c)
  = credentials address key c.
Proof.
  rewrite pubmed_search_biopython_run. cbv zeta.
  destruct (esearch_reply service _ term) as [sr|e]; [|reflexivity].
  destruct (Count sr >? 10000); [reflexivity|].
  pose proof (pager_client service sr (Count sr) batch_size verbose
                (credentials address key c)) as Hc.
  destruct (pager service sr (Count sr) batch_size verbose _) as [[c2 t] [r|e]];
    exact Hc.
Qed.

(** C5.  A call searches exactly once; every fetch request in its trace
    carries the WebEnv and QueryKey of that one search reply; and when
    0 <= count <= 10000, the batch size is positive and every batch is
    served and parsed, there are ceil(count / batch_size) fetch
    requests. *)
Theorem token_pair_reused (service : Service) (term address : string)
    (key : option string) (batch_size : Z) (verbose : bool) (c : Client)
    (search_results : SearchResults) :
  esearch_reply service (credentials address key c) term
  = Served search_results ->
  let t :=
    events_of
      (pubmed_search_biopython service term address key batch_size verbose c) in
  searches t = [term] /\
  Forall (fun rq => webenv rq = WebEnv search_results /\
                    query_key rq = QueryKey search_results) (fetches t) /\
  (0 <= Count search_results <= 10000 -> 0 < batch_size ->
   (forall start,
      is_ok (batch_rows service (credentials address key c) search_results
               batch_size start) = true) ->
   Z.of_nat (length (fetches t)) = ceil_div (Count search_results) batch_size).
Proof.
  intros Hsearch t. subst t.
  rewrite pubmed_search_biopython_run. cbv zeta. rewrite Hsearch.
  destruct (header_projections term verbose) as (Hs & Hf & _).
  set (c' := credentials address key c).
  set (count := Count search_results).
  assert (forall starts : list Z,
            Forall (fun rq => webenv rq = WebEnv search_results /\
                              query_key rq = QueryKey search_results)
              (List.map (fun start =>
                           fetch_request search_results start batch_size)
                 starts)) as Htokens.
  { intros starts. apply List.Forall_forall. intros rq Hin.
    apply List.in_map_iff in Hin as (start & <- & _). split; reflexivity. }
  destruct (Z.gtb_spec count 10000) as [Hbig|Hsmall].
  - cbn [events_of fst snd]. rewrite Hs, Hf.
    repeat split; [constructor|lia].
  - rewrite pager_run.
    destruct (Py.range 0 count batch_size) as [starts|e] eqn:Hrange.
    + destruct (first_failure service search_results batch_size c' starts)
        as [Hall|(pre & start & post & e & -> & Hpre & Hfail)].
      * rewrite (pager_loop_ok _ _ _ _ _ _ _ _ Hall).
        cbn [events_of fst snd].
        rewrite !searches_app, !fetches_app, Hs, Hf, searches_batches,
          fetches_batches.
        cbn [List.app searches fetches omap]. rewrite List.app_nil_r.
        repeat split; [apply Htokens|].
        intros Hc Hb _.
        destruct (range_batches count batch_size ltac:(lia) Hb)
          as (Hr & Hn & _).
        rewrite Hr in Hrange. injection Hrange as <-.
        now rewrite List.length_map, starts_from_length.
      * rewrite (pager_loop_fail _ _ _ _ _ _ _ _ _ _ _ Hpre Hfail).
        cbn [events_of fst snd].
        rewrite !searches_app, !fetches_app, Hs, Hf, searches_batches,
          fetches_batches, searches_request_events, fetches_request_events.
        cbn [List.app]. split; [reflexivity|]. split.
        -- change (Forall (fun rq => webenv rq = WebEnv search_results /\
                                      query_key rq = QueryKey search_results)
                     (List.map (fun s => fetch_request search_results s batch_size)
                        pre
                      ++ List.map
                           (fun s => fetch_request search_results s batch_size)
                           [start])).
           rewrite <- List.map_app. apply Htokens.
        -- intros _ _ Hok. specialize (Hok start).
           fold c' in Hok. rewrite Hfail in Hok. discriminate.
    + cbn [events_of fst snd]. rewrite List.app_nil_r, Hs, Hf.
      repeat split; [constructor|].
      intros _ Hb _. unfold Py.range in Hrange.
      destruct (Z.eqb_spec batch_size 0); [lia|discriminate].
Qed.

Lemma token_pair_reused_witness :
  let t :=
    events_of
      (pubmed_search_biopython (constant_service 2500 [title_record])
         "cancer" "a@b.c" None 1000 true fresh_client) in
  searches t = ["cancer"] /\
  Forall (fun rq => webenv rq = "MCID_1" /\ query_key rq = "1") (fetches t) /\
  Z.of_nat (length (fetches t)) = ceil_div 2500 1000.
Proof.
  destruct (token_pair_reused (constant_service 2500 [title_record])
              "cancer" "a@b.c" None 1000 true fresh_client
              {| Count := 2500; WebEnv := "MCID_1"; QueryKey := "1" |} eq_refl)
    as (Hs & Ht & Hn).
  split; [exact Hs|]. split; [exact Ht|].
  apply Hn; [cbn; lia|lia|intros; reflexivity].
Defined.

(** ** Failure of a fetch *)

(** C6.  When the fetches of batches 0..N-1 are served and parsed and the
    fetch of batch N fails, the call stops at that fetch (no sleep, no
    further fetch, no final message) and raises the transport error: the
    caller gets no table, whatever rows the earlier batches produced. *)
Theorem fetch_failure_aborts (service : Service) (term address : string)
    (key : option string) (batch_size : Z) (verbose : bool) (c : Client)
    (search_results : SearchResults) (pre post : list Z) (start : Z)
    (e : string) :
  let c' := credentials address key c in
  esearch_reply service c' term = Served search_results ->
  Count search_results <= 10000 ->
  Py.range 0 (Count search_results) batch_size = Ok (pre ++ start :: post) ->
  Forall (fun s =>
            is_ok (batch_rows service c' search_results batch_size s) = true)
    pre ->
  efetch_reply service c' (fetch_request search_results start batch_size)
  = Failed e ->
  pubmed_search_biopython service term address key batch_size verbose c
  = (c',
     header term verbose
     ++ flat_map
          (batch_events search_results (Count search_results) batch_size verbose)
          pre
     ++ batch_request_events search_results (Count search_results) batch_size
          verbose start,
     Err (TransportError e)).
Proof.
  intros c' Hsearch Hsmall Hrange Hpre Hfail.
  rewrite pubmed_search_biopython_run. cbv zeta. fold c'. rewrite Hsearch.
  destruct (Z.gtb_spec (Count search_results) 10000); [lia|].
  rewrite pager_run, Hrange.
  rewrite (pager_loop_fail service search_results (Count search_results)
             batch_size verbose pre post start (TransportError e) [] c' Hpre).
  - reflexivity.
  - unfold batch_rows. now rewrite Hfail.
Qed.

Lemma fetch_failure_aborts_witness :
  result_of
    (pubmed_search_biopython (flaky_service 2500 1000 [title_record])
       "cancer" "" None 1000 false fresh_client)
  = Err (TransportError "HTTP Error 429") /\
  List.map carried
    (fetches
       (events_of
          (pubmed_search_biopython (flaky_service 2500 1000 [title_record])
             "cancer" "" None 1000 false fresh_client)))
  = [(0, 1000); (1000, 1000)].
Proof.
  rewrite (fetch_failure_aborts (flaky_service 2500 1000 [title_record])
             "cancer" "" None 1000 false fresh_client
             {| Count := 2500; WebEnv := "MCID_1"; QueryKey := "1" |}
             [0] [2000] 1000 "HTTP Error 429"
             eq_refl ltac:(cbn; lia) eq_refl
             ltac:(repeat constructor) eq_refl).
  split; reflexivity.
Defined.

(** ** Credentials on the shared client *)

(** C9.  After a call, whatever its outcome, the client's email is the
    caller's email (also the empty default), and its api_key is the
    caller's key when that is a non-empty string and the previous api_key
    otherwise: a call without a key keeps the key an earlier call
    installed. *)
Theorem credentials_written (service : Service) (term address : string)
    (key : option string) (batch_size : Z) (verbose : bool) (c : Client) :
  let c' :=
    client_of
      (pubmed_search_biopython service term address key batch_size verbose c) in
  email c' = address /\
  api_key c' = (if Py.truthy key then key else api_key c) /\
  (key = None -> api_key c' = api_key c) /\
  (forall k, key = Some k -> k <> "" ->
   forall service2 term2 address2 batch_size2 verbose2,
     api_key
       (client_of
          (pubmed_search_biopython service2 term2 address2 None batch_size2
             verbose2 c'))
     = Some k).
Proof.
  cbv zeta. rewrite client_after_call.
  split; [reflexivity|]. split; [reflexivity|]. split.
  - intros ->. reflexivity.
  - intros k -> Hk service2 term2 address2 batch_size2 verbose2.
    rewrite client_after_call. cbn.
    destruct (String.eqb_spec k ""); [contradiction|reflexivity].
Qed.

Lemma credentials_written_witness :
  api_key
    (client_of
       (pubmed_search_biopython (constant_service 0 []) "cancer" "" None 1000
          true
          (client_of
             (pubmed_search_biopython (constant_service 10001 []) "cancer"
                "a@b.c" (Some "KEY") 1000 true fresh_client))))
  = Some "KEY".
Proof.
  apply (proj2 (proj2 (proj2
           (credentials_written (constant_service 10001 []) "cancer" "a@b.c"
              (Some "KEY") 1000 true fresh_client))) "KEY" eq_refl).
  discriminate.
Defined.

(** ** A negative batch size *)

(** Against C10 as stated.  With 10,001 matches and batch size -1 the call
    raises the too-large error: it does not return an empty table. *)
Lemma negative_batch_over_ceiling :
  let run :=
    pubmed_search_biopython (constant_service 10001 []) "cancer" "" None (-1)
      true fresh_client in
  0 < 10001 /\ -1 < 0 /\
  result_of run = Err (ResultSetTooLarge 10001) /\
  result_of run <> Ok [].
Proof.
  cbv zeta. split; [lia|]. split; [lia|]. split; [reflexivity|discriminate].
Qed.

(** C10 (amended).  The batch size is not validated: when the search
    reports 0 < count <= 10000, a call with a negative batch size returns
    an empty table without raising, and issues no fetch and no sleep. *)
Theorem negative_batch_size (service : Service) (term address : string)
    (key : option string) (batch_size : Z) (verbose : bool) (c : Client)
    (search_results : SearchResults) :
  esearch_reply service (credentials address key c) term
  = Served search_results ->
  0 < Count search_results <= 10000 ->
  batch_size < 0 ->
  let run :=
    pubmed_search_biopython service term address key batch_size verbose c in
  run = (credentials address key c, header term verbose ++ [Print MsgDone],
         Ok []) /\
  fetches (events_of run) = [] /\
  sleeps (events_of run) = [].
Proof.
  intros Hsearch Hcount Hneg run. subst run.
  rewrite pubmed_search_biopython_run. cbv zeta. rewrite Hsearch.
  destruct (Z.gtb_spec (Count search_results) 10000); [lia|].
  rewrite pager_run, range_negative by lia. cbn.
  unfold header. destruct verbose; repeat split; reflexivity.
Qed.

Lemma negative_batch_size_witness :
  result_of
    (pubmed_search_biopython (constant_service 2500 [title_record]) "cancer"
       "" None (-1000) true fresh_client)
  = Ok [].
Proof.
  exact (f_equal result_of
           (proj1 (negative_batch_size (constant_service 2500 [title_record])
                     "cancer" "" None (-1000) true fresh_client
                     {| Count := 2500; WebEnv := "MCID_1"; QueryKey := "1" |}
                     eq_refl ltac:(cbn; lia) ltac:(lia)))).
Defined.

(** ** Whitespace collapsing *)

Lemma re_sub_spaces_cons (c : ascii) (t : string) :
  Py.re_sub_spaces (String c t)
  = if Py.is_space c then String " " (Py.re_sub_spaces (skip_spaces t))
    else String c (Py.re_sub_spaces t).
Proof.
  cbn [Py.re_sub_spaces]. destruct (Py.is_space c); [|reflexivity].
  f_equal. induction t as [|d v IH]; [reflexivity|].
  cbn [skip_spaces]. destruct (Py.is_space d) eqn:Hd; [exact IH|].
  cbn [Py.re_sub_spaces]. now rewrite Hd.
Qed.

Lemma skip_spaces_length (s : string) :
  (String.length (skip_spaces s) <= String.length s)%nat.
Proof.
  induction s as [|c t IH]; cbn; [lia|].
  destruct (Py.is_space c); cbn; lia.
Qed.

Lemma runs_head (d : ascii) (v : string) :
  exists r rest, runs (String d v) = (Py.is_space d, String d r) :: rest.
Proof.
  cbn [runs]. destruct (runs v) as [|[b r] rest]; [eauto|].
  destruct (Bool.eqb_spec b (Py.is_space d)) as [->|]; eauto.
Qed.

Lemma runs_skip_spaces (t : string) :
  runs (skip_spaces t)
  = match runs t with
    | (true, _) :: rest => rest
    | l => l
    end.
Proof.
  induction t as [|c v IH]; [reflexivity|].
  cbn [skip_spaces]. destruct (Py.is_space c) eqn:Hc.
  - rewrite IH. cbn [runs]. rewrite Hc.
    destruct (runs v) as [|[[] r] rest]; reflexivity.
  - destruct (runs_head c v) as (r & rest & ->). now rewrite Hc.
Qed.

Lemma collapse_whitespace_cons (c : ascii) (t : string) :
  collapse_whitespace (String c t)
  = if Py.is_space c then String " " (collapse_whitespace (skip_spaces t))
    else String c (collapse_whitespace t).
Proof.
  unfold collapse_whitespace. rewrite runs_skip_spaces. cbn [runs].
  destruct (Py.is_space c), (runs t) as [|[[] r] rest]; reflexivity.
Qed.

(** The substitution of the code is the collapsing of the data model. *)
Lemma re_sub_spaces_collapse (s : string) :
  Py.re_sub_spaces s = collapse_whitespace s.
Proof.
  remember (String.length s) as n eqn:Hn.
  assert (String.length s <= n)%nat as Hle by lia. clear Hn.
  revert s Hle. induction n as [|n IH]; intros s Hle.
  - destruct s; [reflexivity|cbn in Hle; lia].
  - destruct s as [|c t]; [reflexivity|]. cbn in Hle.
    rewrite re_sub_spaces_cons, collapse_whitespace_cons.
    pose proof (skip_spaces_length t).
    destruct (Py.is_space c); f_equal; apply IH; lia.
Qed.

(** Collapsing a collapsed string changes nothing. *)
Lemma collapse_whitespace_idempotent (s : string) :
  collapse_whitespace (collapse_whitespace s) = collapse_whitespace s.
Proof.
  remember (String.length s) as n eqn:Hn.
  assert (String.length s <= n)%nat as Hle by lia. clear Hn.
  revert s Hle. induction n as [|n IH]; intros s Hle.
  - destruct s; [reflexivity|cbn in Hle; lia].
  - destruct s as [|c t]; [reflexivity|]. cbn in Hle.
    rewrite (collapse_whitespace_cons c t).
    pose proof (skip_spaces_length t) as Hskip.
    destruct (Py.is_space c) eqn:Hc.
    + rewrite collapse_whitespace_cons.
      change (Py.is_space " ") with true. cbv iota. f_equal.
      assert (skip_spaces (collapse_whitespace (skip_spaces t))
              = collapse_whitespace (skip_spaces t)) as ->.
      { destruct (skip_spaces t) as [|d v] eqn:Ht; [reflexivity|].
        assert (Py.is_space d = false) as Hd.
        { clear - Ht. induction t as [|x y IHt]; [discriminate|].
          cbn in Ht. destruct (Py.is_space x) eqn:Hx; [auto|].
          injection Ht as -> ->. exact Hx. }
        rewrite collapse_whitespace_cons, Hd. cbn [skip_spaces].
        now rewrite Hd. }
      apply IH. lia.
    + rewrite collapse_whitespace_cons, Hc. f_equal. apply IH. lia.
Qed.

Example collapse_foo_bar :
  collapse_whitespace ("Foo" +:+ String "010" (String "009" "Bar")) = "Foo Bar".
Proof. reflexivity. Qed.

(** ** Strings that [int] rejects *)

Lemma digits_need_digit (s : string) (acc : Z) (prev : bool) (n : Z) :
  Py.digits s acc prev = Some n -> prev = true \/ (0 < Py.count_digits s)%nat.
Proof.
  revert acc prev. induction s as [|c t IH]; intros acc prev Hd; cbn in *.
  - destruct prev; [auto|discriminate].
  - destruct (Py.is_digit c); [right; lia|].
    destruct (Ascii.eqb c "_"); [|discriminate].
    destruct prev; [auto|discriminate].
Qed.

Lemma count_digits_lstrip (s : string) :
  (Py.count_digits (Py.lstrip s) <= Py.count_digits s)%nat.
Proof.
  induction s as [|c t IH]; cbn; [lia|].
  destruct (Py.is_int_space c); cbn; destruct (Py.is_digit c); lia.
Qed.

Lemma count_digits_rstrip (s : string) :
  (Py.count_digits (Py.rstrip s) <= Py.count_digits s)%nat.
Proof.
  induction s as [|c t IH]; cbn; [lia|].
  destruct (Py.rstrip t) as [|d u]; cbn in *.
  - destruct (Py.is_int_space c); cbn; destruct (Py.is_digit c); lia.
  - destruct (Py.is_digit c); lia.
Qed.

(** A string without a decimal digit is not a number. *)
Lemma int_of_str_no_digit (s : string) :
  Py.count_digits s = O -> Py.int_of_str s = Err (ValueError IntLiteral).
Proof.
  intros Hnone. unfold Py.int_of_str.
  pose proof (count_digits_lstrip s) as Hl.
  pose proof (count_digits_rstrip (Py.lstrip s)) as Hr.
  set (body := Py.rstrip (Py.lstrip s)) in *.
  assert (Py.count_digits body = O) as Hbody by lia.
  assert (forall sign ds,
            Py.count_digits ds = O ->
            match Py.digits ds 0 false with
            | Some n =>
                if (Py.int_max_str_digits <? Py.count_digits ds)%nat
                then Err (ValueError IntLiteral) else Ok (sign * n)
            | None => Err (ValueError IntLiteral)
            end = Err (ValueError IntLiteral)) as Hds.
  { intros sign ds Hz. destruct (Py.digits ds 0 false) as [n|] eqn:Hd;
      [|reflexivity].
    apply digits_need_digit in Hd as [Hd|Hd]; [discriminate|lia]. }
  destruct body as [|c t]; [apply Hds; reflexivity|].
  assert (Py.count_digits t = O) as Ht.
  { cbn in Hbody. destruct (Py.is_digit c); [discriminate|assumption]. }
  destruct (Ascii.eqb_spec c "+") as [->|Hplus]; [apply Hds; exact Ht|].
  destruct (Ascii.eqb_spec c "-") as [->|Hminus]; [apply Hds; exact Ht|].
  assert (match String c t with
          | String "+" t0 => (1, t0)
          | String "-" t0 => (-1, t0)
          | _ => (1, String c t)
          end = (1, String c t)) as ->.
  { destruct c as [[] [] [] [] [] [] [] []]; try reflexivity;
      exfalso; auto. }
  apply Hds. exact Hbody.
Qed.

(** ** Parsing a record *)

Lemma record_get_absent (record : RawRecord) (tag : string) :
  record !! tag = None -> record_get record tag = VStr "".
Proof. unfold record_get. now intros ->. Qed.

Lemma record_get_present (record : RawRecord) (tag : string) (v : value) :
  record !! tag = Some v -> record_get record tag = v.
Proof. unfold record_get. now intros ->. Qed.

Lemma record_get_delete (record : RawRecord) (gone tag : string) :
  record_get (delete gone record) tag
  = if decide (gone = tag) then VStr "" else record_get record tag.
Proof.
  unfold record_get. rewrite lookup_delete. now case_decide.
Qed.

Lemma pmid_rejected_int (record : RawRecord) :
  pmid_rejected record ->
  int (record_get record "PMID") = Err (ValueError IntLiteral).
Proof.
  intros [Habsent|(s & Hs & Hbad)].
  - now rewrite (record_get_absent _ _ Habsent).
  - now rewrite (record_get_present _ _ _ Hs).
Qed.

Lemma biopython_row_rejected (record : RawRecord) :
  int (record_get record "PMID") = Err (ValueError IntLiteral) ->
  is_ok (biopython_row record) = false.
Proof.
  intros Hbad. unfold biopython_row. rewrite Hbad.
  destruct (re_sub (record_get record "AB")); [|reflexivity].
  destruct (re_sub (record_get record "TI")); reflexivity.
Qed.

(** C8.  A record whose identifier is numeric and whose title and abstract
    are strings (or absent) parses to the row with the title and abstract
    whitespace-collapsed and the authors, date, headings and other terms
    copied as they are; a tag that is absent reads as the empty string;
    and the parse neither touches the client nor emits an event. *)
Theorem api_record_parse (record : RawRecord) (n : Z) (t a : string) :
  int (record_get record "PMID") = Ok n ->
  record_get record "TI" = VStr t ->
  record_get record "AB" = VStr a ->
  biopython_row record
  = Ok {| pmid := n;
          ti := VStr (collapse_whitespace t);
          ab := VStr (collapse_whitespace a);
          fau := record_get record "FAU";
          dp := record_get record "DP";
          mh := record_get record "MH";
          ot := record_get record "OT" |} /\
  (forall tag, record !! tag = None -> record_get record tag = VStr "") /\
  (forall tag v, record !! tag = Some v -> record_get record tag = v) /\
  (forall c, lift (biopython_row record) c = (c, [], biopython_row record)).
Proof.
  intros Hp Ht Ha. split.
  - unfold biopython_row. rewrite Ha, Ht, Hp. cbn [re_sub].
    now rewrite !re_sub_spaces_collapse.
  - split; [apply record_get_absent|].
    split; [apply record_get_present|reflexivity].
Qed.

Lemma api_record_parse_witness :
  biopython_row title_record
  = Ok {| pmid := 31452104;
          ti := VStr "Foo Bar";
          ab := VStr "";
          fau := VList ["Machado, Diogo"];
          dp := VStr "";
          mh := VStr "";
          ot := VStr "" |}.
Proof.
  exact (proj1 (api_record_parse title_record 31452104
                  ("Foo" +:+ String "010" (String "009" "Bar")) ""
                  eq_refl eq_refl eq_refl)).
Defined.

(** C3.  A record whose identifier tag is absent, or holds a string that
    int rejects, does not parse; with title and abstract strings the error
    is the ValueError of int; a call that fetched such a record returns no
    table; and removing any other tag from a record that parses leaves a
    record that parses. *)
Theorem missing_identifier_aborts (record : RawRecord) :
  pmid_rejected record ->
  is_ok (biopython_row record) = false /\
  (text_tags_scalar record ->
   biopython_row record = Err (ValueError IntLiteral)) /\
  (forall service term address key batch_size verbose c search_results
          start records,
     let c' := credentials address key c in
     let run :=
       pubmed_search_biopython service term address key batch_size verbose c in
     esearch_reply service c' term = Served search_results ->
     In (fetch_request search_results start batch_size)
        (fetches (events_of run)) ->
     efetch_reply service c' (fetch_request search_results start batch_size)
     = Served records ->
     In record records ->
     is_ok (result_of run) = false) /\
  (forall (other : RawRecord) (tag : string),
     tag <> "PMID" ->
     is_ok (biopython_row other) = true ->
     is_ok (biopython_row (delete tag other)) = true).
Proof.
  intros Hrej. pose proof (pmid_rejected_int record Hrej) as Hint.
  pose proof (biopython_row_rejected record Hint) as Hrow.
  split; [exact Hrow|]. split; [|split].
  - intros [(t & Ht) (a & Ha)]. unfold biopython_row.
    now rewrite Ha, Ht, Hint.
  - intros service term address key batch_size verbose c sr start records
      c' run Hsearch Hissued Hserved Hin. subst run.
    revert Hissued. rewrite pubmed_search_biopython_run. cbv zeta.
    fold c'. rewrite Hsearch.
    destruct (header_projections term verbose) as (_ & Hf & _).
    destruct (Count sr >? 10000); [reflexivity|].
    rewrite pager_run.
    destruct (Py.range 0 (Count sr) batch_size) as [starts|e];
      [|reflexivity].
    destruct (first_failure service sr batch_size c' starts)
      as [Hall|(pre & s & post & e & -> & Hpre & Hfail)].
    + rewrite (pager_loop_ok _ _ _ _ _ _ _ _ Hall). cbn [events_of fst snd].
      rewrite !fetches_app, Hf, fetches_batches. cbn [List.app fetches omap].
      rewrite List.app_nil_r. intros Hissued. exfalso.
      apply List.in_map_iff in Hissued as (s & Heq & Hs).
      assert (s = start) as -> by (apply (f_equal retstart) in Heq; exact Heq).
      rewrite List.Forall_forall in Hall. specialize (Hall start Hs).
      unfold batch_rows in Hall. rewrite Hserved in Hall. cbn [of_reply] in Hall.
      destruct (records_loop biopython_row records []) as [rows|e] eqn:Hloop;
        [|discriminate].
      pose proof (records_loop_ok _ _ _ _ Hloop record Hin) as Hok.
      congruence.
    + rewrite (pager_loop_fail _ _ _ _ _ _ _ _ _ _ _ Hpre Hfail). reflexivity.
  - intros other tag Hne. unfold biopython_row.
    rewrite !record_get_delete.
    destruct (decide (tag = "PMID")) as [|_]; [contradiction|].
    destruct (decide (tag = "AB")), (decide (tag = "TI")); cbn [re_sub];
      destruct (re_sub (record_get other "AB")),
        (re_sub (record_get other "TI")),
        (int (record_get other "PMID")); auto.
Qed.

Lemma missing_identifier_aborts_witness :
  biopython_row untagged_record = Err (ValueError IntLiteral) /\
  is_ok
    (result_of
       (pubmed_search_biopython
          (constant_service 2500 [title_record; untagged_record])
          "cancer" "" None 1000 false fresh_client)) = false.
Proof.
  destruct (missing_identifier_aborts untagged_record (or_introl eq_refl))
    as (_ & Herr & Habort & _).
  split.
  - apply Herr. split; eexists; reflexivity.
  - apply (Habort (constant_service 2500 [title_record; untagged_record])
             "cancer" "" None 1000 false fresh_client
             {| Count := 2500; WebEnv := "MCID_1"; QueryKey := "1" |}
             0 [title_record; untagged_record] eq_refl).
    + left. reflexivity.
    + reflexivity.
    + right. left. reflexivity.
Defined.

(** ** The local-tool path *)

Lemma edirect_row_verbatim (record : RawRecord) (row : Row) :
  edirect_row record = Ok row ->
  ti row = record_get record "TI" /\ ab row = record_get record "AB".
Proof.
  unfold edirect_row. destruct (int (record_get record "PMID")); [|discriminate].
  intros Heq. injection Heq as <-. split; reflexivity.
Qed.

(** C7 (on the code).  For a record whose title holds two consecutive
    spaces the local-tool path returns the title as it is, where
    collapsing gives a single space and the API path returns the
    collapsed title. *)
Theorem edirect_title_not_collapsed :
  result_of
    (pubmed_search_edirect (linux_host [spaced_title_record]) "cancer" None
       fresh_client)
  = Ok [ {| pmid := 31452104; ti := VStr "Foo  Bar"; ab := VStr "";
            fau := VStr ""; dp := VStr ""; mh := VStr ""; ot := VStr "" |} ] /\
  collapse_whitespace "Foo  Bar" = "Foo Bar" /\
  result_of
    (pubmed_search_biopython (constant_service 1 [spaced_title_record])
       "cancer" "" None 1000 false fresh_client)
  = Ok [ {| pmid := 31452104; ti := VStr "Foo Bar"; ab := VStr "";
            fau := VStr ""; dp := VStr ""; mh := VStr ""; ot := VStr "" |} ].
Proof. repeat split; reflexivity. Qed.


(** ** One row per record *)

Lemma records_loop_rows (row_of : RawRecord -> result Row)
    (records : list RawRecord) (r rows : list Row) :
  records_loop row_of records r = Ok rows ->
  exists rows',
    rows = r ++ rows' /\
    Forall2 (fun record row => row_of record = Ok row) records rows'.
Proof.
  revert r. induction records as [|record rest IH]; intros r Hok; cbn in Hok.
  - injection Hok as <-. exists []. split; [now rewrite List.app_nil_r|].
    constructor.
  - destruct (row_of record) as [row|e] eqn:Hrow; [|discriminate].
    destruct (IH _ Hok) as (rows' & -> & Hrows).
    exists (row :: rows'). split; [now rewrite <- List.app_assoc|].
    constructor; assumption.
Qed.



Lemma batch_rows_served (service : Service) (c : Client)
    (search_results : SearchResults) (batch_size start : Z) (rows : list Row) :
  batch_rows service c search_results batch_size start = Ok rows ->
  Forall2 (fun record row => biopython_row record = Ok row)
    (served service c (fetch_request search_results start batch_size)) rows.
Proof.
  unfold batch_rows, served.
  destruct (efetch_reply service c _) as [records|e]; cbn [of_reply];
    [|discriminate].
  intros Hok. apply records_loop_rows in Hok as (rows' & -> & Hrows).
  exact Hrows.
Qed.

Lemma all_batches_served (service : Service) (c : Client)
    (search_results : SearchResults) (batch_size : Z) (starts : list Z) :
  Forall (fun start =>
            is_ok (batch_rows service c search_results batch_size start) = true)
    starts ->
  Forall2 (fun record row => biopython_row record = Ok row)
    (flat_map (fun start =>
                 served service c (fetch_request search_results start batch_size))
       starts)
    (flat_map (fun start =>
                 rows_or_nil
                   (batch_rows service c search_results batch_size start))
       starts).
Proof.
  induction starts as [|start rest IH]; intros Hall; [constructor|].
  inversion Hall as [|? ? Hstart Hrest]; subst. cbn [flat_map].
  apply List.Forall2_app; [|apply IH; assumption].
  destruct (batch_rows service c search_results batch_size start) as [rows|e]
    eqn:Hrows; [|discriminate].
  apply batch_rows_served. exact Hrows.
Qed.

(** X1.  When the search reports 0 <= count <= 10000, the batch size is
    positive and every batch is served and parsed, the call returns a
    table with exactly one row per served record, in fetch order, after
    the batches' requests with one sleep between them and the final
    message. *)
Theorem search_returns_every_record (service : Service)
    (term address : string) (key : option string) (batch_size : Z)
    (verbose : bool) (c : Client) (search_results : SearchResults) :
  let c' := credentials address key c in
  esearch_reply service c' term = Served search_results ->
  0 <= Count search_results <= 10000 ->
  0 < batch_size ->
  (forall start,
     is_ok (batch_rows service c' search_results batch_size start) = true) ->
  exists starts table,
    Py.range 0 (Count search_results) batch_size = Ok starts /\
    pubmed_search_biopython service term address key batch_size verbose c
    = (c',
       header term verbose
       ++ interleave
            (List.map
               (batch_request_events search_results (Count search_results)
                  batch_size verbose) starts)
            (Sleep 3)
       ++ [Print MsgDone],
       Ok table) /\
    Forall2 (fun record row => biopython_row record = Ok row)
      (flat_map (fun start =>
                   served service c'
                     (fetch_request search_results start batch_size)) starts)
      table.
Proof.
  intros c' Hsearch Hcount Hstep Hok.
  destruct (range_batches (Count search_results) batch_size ltac:(lia) Hstep)
    as (Hrange & _ & _ & Hb).
  set (n := Z.to_nat (ceil_div (Count search_results) batch_size)) in *.
  set (starts := starts_from 0 batch_size n) in *.
  assert (Forall (fun start =>
                    is_ok (batch_rows service c' search_results batch_size
                             start) = true) starts) as Hall
    by (apply List.Forall_forall; intros; apply Hok).
  exists starts, (flat_map (fun start =>
                              rows_or_nil
                                (batch_rows service c' search_results
                                   batch_size start)) starts).
  split; [exact Hrange|]. split; [|apply all_batches_served; exact Hall].
  rewrite pubmed_search_biopython_run. cbv zeta. fold c'. rewrite Hsearch.
  destruct (Z.gtb_spec (Count search_results) 10000); [lia|].
  rewrite pager_run, Hrange, (pager_loop_ok _ _ _ _ _ _ _ _ Hall).
  unfold starts. rewrite batches_interleave by assumption. reflexivity.
Qed.

Lemma search_returns_every_record_witness :
  exists table,
    result_of
      (pubmed_search_biopython (constant_service 2500 [title_record])
         "cancer" "" None 1000 true fresh_client) = Ok table /\
    length table = 3%nat.
Proof.
  destruct (search_returns_every_record (constant_service 2500 [title_record])
              "cancer" "" None 1000 true fresh_client
              {| Count := 2500; WebEnv := "MCID_1"; QueryKey := "1" |}
              eq_refl ltac:(cbn; lia) ltac:(lia) ltac:(intros; reflexivity))
    as (starts & table & Hrange & Hrun & Hrows).
  exists table. split; [now rewrite Hrun|].
  apply List.Forall2_length in Hrows. rewrite <- Hrows.
  injection Hrange as <-. reflexivity.
Defined.

(** ** Outcomes of a call *)

Section Outcomes.

Variable service : Service.
Variables term address : string.
Variable key : option string.
Variable batch_size : Z.
Variable verbose : bool.
Variable c : Client.

Let c' := credentials address key c.
Let run := pubmed_search_biopython service term address key batch_size verbose c.

(** Every call ends in one of five ways. *)
Lemma call_outcomes :
  (exists e,
     esearch_reply service c' term = Failed e /\
     run = (c', header term verbose, Err (TransportError e))) \/
  (exists sr,
     esearch_reply service c' term = Served sr /\ 10000 < Count sr /\
     run = (c', header term verbose, Err (ResultSetTooLarge (Count sr)))) \/
  (exists sr,
     esearch_reply service c' term = Served sr /\ Count sr <= 10000 /\
     batch_size = 0 /\
     run = (c', header term verbose, Err (ValueError RangeStep))) \/
  (exists sr starts,
     esearch_reply service c' term = Served sr /\ Count sr <= 10000 /\
     Py.range 0 (Count sr) batch_size = Ok starts /\
     Forall (fun s => is_ok (batch_rows service c' sr batch_size s) = true)
       starts /\
     run = (c',
            header term verbose
            ++ flat_map (batch_events sr (Count sr) batch_size verbose) starts
            ++ [Print MsgDone],
            Ok (flat_map
                  (fun s => rows_or_nil (batch_rows service c' sr batch_size s))
                  starts))) \/
  (exists sr pre start post e,
     esearch_reply service c' term = Served sr /\ Count sr <= 10000 /\
     Py.range 0 (Count sr) batch_size = Ok (pre ++ start :: post) /\
     Forall (fun s => is_ok (batch_rows service c' sr batch_size s) = true)
       pre /\
     batch_rows service c' sr batch_size start = Err e /\
     run = (c',
            header term verbose
            ++ flat_map (batch_events sr (Count sr) batch_size verbose) pre
            ++ batch_request_events sr (Count sr) batch_size verbose start,
            Err e)).
Proof.
  unfold run. rewrite pubmed_search_biopython_run. cbv zeta. fold c'.
  destruct (esearch_reply service c' term) as [sr|e]; [|left; eauto].
  right. destruct (Z.gtb_spec (Count sr) 10000) as [Hbig|Hsmall].
  { left. exists sr. split; [reflexivity|]. split; [lia|reflexivity]. }
  right. rewrite pager_run.
  destruct (Py.range 0 (Count sr) batch_size) as [starts|e] eqn:Hrange.
  - right.
    destruct (first_failure service sr batch_size c' starts)
      as [Hall|(pre & start & post & e & -> & Hpre & Hfail)].
    + left. exists sr, starts.
      rewrite (pager_loop_ok _ _ _ _ _ _ _ _ Hall).
      split; [reflexivity|]. split; [assumption|].
      split; [first [assumption|reflexivity]|].
      split; [assumption|reflexivity].
    + right. exists sr, pre, start, post, e.
      rewrite (pager_loop_fail _ _ _ _ _ _ _ _ _ _ _ Hpre Hfail).
      split; [reflexivity|]. split; [assumption|].
      split; [first [assumption|reflexivity]|].
      split; [assumption|]. split; [assumption|reflexivity].
  - left. exists sr. unfold Py.range in Hrange.
    destruct (Z.eqb_spec batch_size 0) as [Hz|]; [|discriminate].
    injection Hrange as <-. rewrite List.app_nil_r.
    split; [reflexivity|]. split; [assumption|]. split; [assumption|reflexivity].
Qed.

End Outcomes.

(** X2.  A call raises the zero-step ValueError exactly when the search
    was served, reported at most 10,000 matches and the batch size is 0
    (also when there are no matches); it has then searched but issued no
    fetch. *)
Theorem zero_batch_size_raises (service : Service) (term address : string)
    (key : option string) (batch_size : Z) (verbose : bool) (c : Client) :
  let run :=
    pubmed_search_biopython service term address key batch_size verbose c in
  (result_of run = Err (ValueError RangeStep) <->
   exists sr,
     esearch_reply service (credentials address key c) term = Served sr /\
     Count sr <= 10000 /\ batch_size = 0) /\
  (result_of run = Err (ValueError RangeStep) ->
   events_of run = header term verbose).
Proof.
  cbv zeta.
  destruct (call_outcomes service term address key batch_size verbose c)
    as [(e & Hs & ->)|[(sr & Hs & Hc & ->)|[(sr & Hs & Hc & Hz & ->)|
        [(sr & starts & Hs & Hc & Hr & Hall & ->)|
         (sr & pre & start & post & e & Hs & Hc & Hr & Hpre & Hfail & ->)]]]];
    cbn [result_of events_of fst snd].
  - split; [split|]; [discriminate| |discriminate].
    intros (sr & Hs' & _). congruence.
  - split; [split|]; [discriminate| |discriminate].
    intros (sr' & Hs' & Hc' & _). rewrite Hs in Hs'. injection Hs' as <-. lia.
  - split; [split|]; eauto.
  - split; [split|]; [discriminate| |discriminate].
    intros (sr' & _ & _ & ->). discriminate Hr.
  - assert (e <> ValueError RangeStep) as Hne.
    { destruct (batch_rows_error _ _ _ _ _ _ Hfail) as [[msg ->]|[->| ->]];
        discriminate. }
    split; [split|]; [congruence| |congruence].
    intros (sr' & _ & _ & ->). discriminate Hr.
Qed.

Lemma printed_app (t u : list event) :
  printed (t ++ u) = printed t ++ printed u.
Proof. apply omap_app. Qed.

Lemma quiet_app (t u : list event) : quiet (t ++ u) = quiet t ++ quiet u.
Proof. apply List.filter_app. Qed.

Lemma printed_batches (search_results : SearchResults) (count batch_size : Z)
    (verbose : bool) (starts : list Z) :
  ~ In MsgDone
      (printed (flat_map (batch_events search_results count batch_size verbose)
                  starts)).
Proof.
  induction starts as [|start rest IH]; [intros []|].
  cbn [flat_map]. rewrite printed_app. intros Hin.
  apply List.in_app_or in Hin as [Hin|Hin]; [|auto].
  unfold batch_events in Hin.
  destruct verbose, (start + batch_size <? count); cbn in Hin;
    intuition discriminate.
Qed.

Lemma printed_request_events (search_results : SearchResults)
    (count batch_size : Z) (verbose : bool) (start : Z) :
  ~ In MsgDone
      (printed (batch_request_events search_results count batch_size verbose
                  start)).
Proof.
  unfold batch_request_events. destruct verbose; cbn; intuition discriminate.
Qed.

Lemma printed_header (term : string) (verbose : bool) :
  ~ In MsgDone (printed (header term verbose)).
Proof. unfold header. destruct verbose; cbn; intuition discriminate. Qed.

(** X3.  The final message is printed exactly when the call returns a
    table, and it is then the last event. *)
Theorem done_iff_table (service : Service) (term address : string)
    (key : option string) (batch_size : Z) (verbose : bool) (c : Client) :
  let run :=
    pubmed_search_biopython service term address key batch_size verbose c in
  (In MsgDone (printed (events_of run)) <-> is_ok (result_of run) = true) /\
  (is_ok (result_of run) = true ->
   exists t, events_of run = t ++ [Print MsgDone] /\
             ~ In MsgDone (printed t)).
Proof.
  cbv zeta.
  pose proof (printed_header term verbose) as Hh.
  destruct (call_outcomes service term address key batch_size verbose c)
    as [(e & Hs & ->)|[(sr & Hs & Hc & ->)|[(sr & Hs & Hc & Hz & ->)|
        [(sr & starts & Hs & Hc & Hr & Hall & ->)|
         (sr & pre & start & post & e & Hs & Hc & Hr & Hpre & Hfail & ->)]]]];
    cbn [result_of events_of fst snd is_ok].
  1-3: split; [split|]; [contradiction|discriminate|discriminate].
  - pose proof (printed_batches sr (Count sr) batch_size verbose starts) as Hb.
    split; [split; [reflexivity|]|].
    + intros _. rewrite !printed_app. apply List.in_or_app. right.
      apply List.in_or_app. right. left. reflexivity.
    + intros _. eexists. rewrite List.app_assoc. split; [reflexivity|].
      rewrite printed_app. intros Hin.
      apply List.in_app_or in Hin as [Hin|Hin]; contradiction.
  - pose proof (printed_batches sr (Count sr) batch_size verbose pre) as Hb.
    pose proof (printed_request_events sr (Count sr) batch_size verbose start)
      as Hq.
    split; [split|]; [|discriminate|discriminate].
    rewrite !printed_app. intros Hin.
    apply List.in_app_or in Hin as [Hin|Hin]; [contradiction|].
    apply List.in_app_or in Hin as [Hin|Hin]; contradiction.
Qed.

(** ** What [verbose] changes *)

Lemma quiet_header (term : string) (verbose : bool) :
  quiet (header term verbose) = [ESearch term].
Proof. destruct verbose; reflexivity. Qed.

Lemma quiet_request_events (search_results : SearchResults)
    (count batch_size : Z) (verbose : bool) (start : Z) :
  quiet (batch_request_events search_results count batch_size verbose start)
  = batch_request_events search_results count batch_size false start.
Proof. destruct verbose; reflexivity. Qed.

Lemma quiet_batches (search_results : SearchResults) (count batch_size : Z)
    (verbose : bool) (starts : list Z) :
  quiet (flat_map (batch_events search_results count batch_size verbose) starts)
  = flat_map (batch_events search_results count batch_size false) starts.
Proof.
  induction starts as [|start rest IH]; [reflexivity|].
  cbn [flat_map]. rewrite quiet_app, IH. f_equal.
  unfold batch_events. destruct verbose, (start + batch_size <? count);
    reflexivity.
Qed.

Lemma printed_silent_batches (search_results : SearchResults)
    (count batch_size : Z) (starts : list Z) :
  printed (flat_map (batch_events search_results count batch_size false) starts)
  = [].
Proof.
  induction starts as [|start rest IH]; [reflexivity|].
  cbn [flat_map]. rewrite printed_app, IH.
  unfold batch_events. destruct (start + batch_size <? count); reflexivity.
Qed.

(** X4.  The verbose flag changes nothing but the messages: with and
    without it the call returns the same result, leaves the same client
    and issues the same search, fetches and sleeps in the same order; and
    a call that is not verbose still prints the final message when it
    returns a table (and nothing otherwise). *)
Theorem verbose_only_prints (service : Service) (term address : string)
    (key : option string) (batch_size : Z) (c : Client) :
  let loud :=
    pubmed_search_biopython service term address key batch_size true c in
  let silent :=
    pubmed_search_biopython service term address key batch_size false c in
  result_of loud = result_of silent /\
  client_of loud = client_of silent /\
  quiet (events_of loud) = quiet (events_of silent) /\
  printed (events_of silent)
  = if is_ok (result_of silent) then [MsgDone] else [].
Proof.
  cbv zeta. rewrite !client_after_call.
  rewrite (pubmed_search_biopython_run service term address key batch_size true).
  destruct (call_outcomes service term address key batch_size false c)
    as [(e & Hs & ->)|[(sr & Hs & Hc & ->)|[(sr & Hs & Hc & Hz & ->)|
        [(sr & starts & Hs & Hc & Hr & Hall & ->)|
         (sr & pre & start & post & e & Hs & Hc & Hr & Hpre & Hfail & ->)]]]];
    cbv zeta; rewrite Hs; cbn [result_of events_of fst snd is_ok].
  - repeat split; reflexivity.
  - destruct (Z.gtb_spec (Count sr) 10000); [|lia]. repeat split; reflexivity.
  - destruct (Z.gtb_spec (Count sr) 10000); [lia|].
    rewrite pager_run. subst batch_size. cbn. repeat split; reflexivity.
  - destruct (Z.gtb_spec (Count sr) 10000); [lia|].
    rewrite pager_run, Hr, (pager_loop_ok _ _ _ _ _ _ _ _ Hall).
    cbn [result_of events_of fst snd].
    rewrite !quiet_app, !printed_app, !quiet_header, !quiet_batches,
      printed_silent_batches.
    repeat split; reflexivity.
  - destruct (Z.gtb_spec (Count sr) 10000); [lia|].
    rewrite pager_run, Hr, (pager_loop_fail _ _ _ _ _ _ _ _ _ _ _ Hpre Hfail).
    cbn [result_of events_of fst snd].
    rewrite !quiet_app, !printed_app, !quiet_header, !quiet_batches,
      !quiet_request_events, printed_silent_batches.
    repeat split; reflexivity.
Qed.

(** ** Sleeps and fetches in every run *)

Section EveryRun.

Variable search_results : SearchResults.
Variables count batch_size : Z.
Variable verbose : bool.
Hypothesis step_positive : 0 < batch_size.

Let events_at := batch_events search_results count batch_size verbose.

(** The batches before a later one of the range all sleep. *)
Lemma sleeps_before_later_batch (pre post : list Z) (start : Z) :
  forall (n : nat) (lo : Z),
    starts_from lo batch_size n = pre ++ start :: post ->
    lo + (Z.of_nat n - 1) * batch_size < count ->
    sleeps (flat_map events_at pre) = List.repeat 3 (length pre).
Proof.
  induction pre as [|s pre IH]; intros n lo Hsplit Hlast; [reflexivity|].
  destruct n as [|m]; [discriminate|]. cbn [starts_from List.app] in Hsplit.
  injection Hsplit as <- Hrest.
  assert (m <> O) as Hm by (destruct m; [destruct pre; discriminate|discriminate]).
  cbn [flat_map length List.repeat]. rewrite sleeps_app.
  rewrite (IH m (lo + batch_size) Hrest) by lia.
  unfold events_at, batch_events.
  destruct (Z.ltb_spec (lo + batch_size) count); [|nia].
  destruct verbose; reflexivity.
Qed.

End EveryRun.

(** X5.  In every run of a call whose search reports a count >= 0,
    whether it returns or raises, there is exactly one 3-second sleep
    between consecutive fetches and none before the first or after the
    last; with a positive batch size there are at most
    ceil(count / batch_size) fetches. *)
Theorem one_sleep_between_fetches (service : Service) (term address : string)
    (key : option string) (batch_size : Z) (verbose : bool) (c : Client)
    (search_results : SearchResults) :
  esearch_reply service (credentials address key c) term
  = Served search_results ->
  0 <= Count search_results ->
  let t :=
    events_of
      (pubmed_search_biopython service term address key batch_size verbose c) in
  sleeps t = List.repeat 3 (length (fetches t) - 1) /\
  (0 < batch_size ->
   Z.of_nat (length (fetches t)) <= ceil_div (Count search_results) batch_size).
Proof.
  intros Hsearch Hcount. cbv zeta.
  destruct (header_projections term verbose) as (_ & Hf & Hz).
  destruct (call_outcomes service term address key batch_size verbose c)
    as [(e & Hs & ->)|[(sr & Hs & Hc & ->)|[(sr & Hs & Hc & Hzero & ->)|
        [(sr & starts & Hs & Hc & Hr & Hall & ->)|
         (sr & pre & start & post & e & Hs & Hc & Hr & Hpre & Hfail & ->)]]]];
    cbn [events_of fst snd]; try congruence;
    rewrite Hsearch in Hs; injection Hs as <-.
  - rewrite Hf, Hz. split; [reflexivity|].
    intros Hb. pose proof (ceil_div_spec (Count search_results) batch_size Hb).
    cbn. nia.
  - rewrite Hf, Hz. split; [reflexivity|lia].
  - rewrite !sleeps_app, !fetches_app, Hf, Hz, fetches_batches.
    cbn [List.app sleeps fetches omap]. rewrite !List.app_nil_r, List.length_map.
    destruct (Z.lt_trichotomy batch_size 0) as [Hneg|[Hzero|Hpos]].
    + rewrite range_negative in Hr by lia. injection Hr as <-.
      split; [reflexivity|lia].
    + subst. discriminate Hr.
    + destruct (range_batches (Count search_results) batch_size Hcount Hpos)
        as (Hr' & Hn & _ & Hb).
      rewrite Hr' in Hr. injection Hr as <-.
      rewrite batches_interleave, sleeps_interleave, starts_from_length
        by assumption.
      split; [reflexivity|]. intros _. lia.
  - rewrite !sleeps_app, !fetches_app, Hf, Hz, fetches_batches,
      fetches_request_events, sleeps_request_events.
    cbn [List.app]. rewrite List.app_nil_r, List.length_app, List.length_map.
    cbn [length].
    destruct (Z.lt_trichotomy batch_size 0) as [Hneg|[Hzero|Hpos]].
    + rewrite range_negative in Hr by lia. injection Hr as Hr.
      destruct pre; discriminate Hr.
    + subst. discriminate Hr.
    + destruct (range_batches (Count search_results) batch_size Hcount Hpos)
        as (Hr' & Hn & _ & Hb).
      rewrite Hr' in Hr. injection Hr as Hr.
      set (n := Z.to_nat (ceil_div (Count search_results) batch_size)) in *.
      assert (n <> O) as Hnz by (intros Hn0; rewrite Hn0 in Hr;
                                 destruct pre; discriminate Hr).
      rewrite (sleeps_before_later_batch search_results
                 (Count search_results) batch_size verbose Hpos pre post start
                 n 0 Hr) by (specialize (Hb Hnz); lia).
      replace (length pre + 1 - 1)%nat with (length pre) by lia.
      split; [reflexivity|]. intros _.
      apply (f_equal (@length Z)) in Hr.
      rewrite starts_from_length, List.length_app in Hr. cbn [length] in Hr.
      lia.
Qed.

Lemma one_sleep_between_fetches_witness :
  let t :=
    events_of
      (pubmed_search_biopython (flaky_service 2500 2000 [title_record])
         "cancer" "" None 1000 true fresh_client) in
  sleeps t = List.repeat 3 (length (fetches t) - 1).
Proof.
  exact (proj1 (one_sleep_between_fetches
                  (flaky_service 2500 2000 [title_record])
                  "cancer" "" None 1000 true fresh_client
                  {| Count := 2500; WebEnv := "MCID_1"; QueryKey := "1" |}
                  eq_refl ltac:(cbn; lia))).
Defined.

(** ** Collapsed text is single-spaced *)

Lemma skip_spaces_head (t : string) :
  match skip_spaces t with
  | EmptyString => True
  | String d _ => Py.is_space d = false
  end.
Proof.
  induction t as [|c v IH]; [exact I|].
  cbn [skip_spaces]. destruct (Py.is_space c) eqn:Hc; [exact IH|exact Hc].
Qed.

Lemma single_spaced_collapse_from (n : nat) :
  forall s, (String.length s <= n)%nat ->
    single_spaced_from false (collapse_whitespace s) = true /\
    (match s with
     | EmptyString => True
     | String d _ => Py.is_space d = false
     end ->
     single_spaced_from true (collapse_whitespace s) = true).
Proof.
  induction n as [|n IH]; intros s Hle.
  - destruct s; [split; reflexivity|cbn in Hle; lia].
  - destruct s as [|c t]; [split; reflexivity|]. cbn in Hle.
    rewrite collapse_whitespace_cons.
    pose proof (skip_spaces_length t) as Hskip.
    pose proof (skip_spaces_head t) as Hhead.
    destruct (Py.is_space c) eqn:Hc.
    + split; [|discriminate].
      cbn [single_spaced_from]. change (Py.is_space " ") with true.
      cbn. apply (IH (skip_spaces t)); [lia|exact Hhead].
    + cbn [single_spaced_from]. rewrite Hc.
      split; [|intros _]; apply (IH t); lia.
Qed.

(** The substitution of the code leaves no whitespace but single spaces. *)
Lemma re_sub_spaces_single_spaced (s : string) :
  single_spaced (Py.re_sub_spaces s) = true.
Proof.
  rewrite re_sub_spaces_collapse.
  apply (single_spaced_collapse_from (String.length s) s). lia.
Qed.

Lemma biopython_row_tidy (record : RawRecord) (row : Row) :
  biopython_row record = Ok row -> tidy (ti row) /\ tidy (ab row).
Proof.
  unfold biopython_row, re_sub.
  destruct (record_get record "AB") as [a|?]; [|discriminate].
  destruct (record_get record "TI") as [t|?]; [|discriminate].
  destruct (int (record_get record "PMID")); [|discriminate].
  intros Heq. injection Heq as <-. cbn.
  split; eexists; split; try reflexivity; apply re_sub_spaces_single_spaced.
Qed.

(** X6.  Whatever the service answers, every row of a table the API path
    returns has a title and an abstract that are strings without any
    whitespace character other than the space and without two spaces in a
    row. *)
Theorem table_rows_tidy (service : Service) (term address : string)
    (key : option string) (batch_size : Z) (verbose : bool) (c : Client)
    (table : Table) :
  result_of
    (pubmed_search_biopython service term address key batch_size verbose c)
  = Ok table ->
  Forall (fun row => tidy (ti row) /\ tidy (ab row)) table.
Proof.
  destruct (call_outcomes service term address key batch_size verbose c)
    as [(e & Hs & ->)|[(sr & Hs & Hc & ->)|[(sr & Hs & Hc & Hz & ->)|
        [(sr & starts & Hs & Hc & Hr & Hall & ->)|
         (sr & pre & start & post & e & Hs & Hc & Hr & Hpre & Hfail & ->)]]]];
    cbn [result_of snd]; try discriminate.
  intros Heq. injection Heq as <-.
  pose proof (all_batches_served service _ sr batch_size starts Hall) as Hrows.
  revert Hrows. generalize (flat_map
    (fun s => served service (credentials address key c)
                (fetch_request sr s batch_size)) starts).
  generalize (flat_map
    (fun s => rows_or_nil
                (batch_rows service (credentials address key c) sr batch_size s))
    starts).
  intros rows records Hrows.
  induction Hrows as [|record row records rows Hrow _ IH]; constructor;
    [eapply biopython_row_tidy; eauto|assumption].
Qed.

Lemma table_rows_tidy_witness :
  Forall (fun row => tidy (ti row) /\ tidy (ab row))
    [ {| pmid := 31452104; ti := VStr "Foo Bar"; ab := VStr "";
         fau := VStr ""; dp := VStr ""; mh := VStr ""; ot := VStr "" |} ].
Proof.
  exact (table_rows_tidy (constant_service 1 [spaced_title_record])
           "cancer" "" None 1000 false fresh_client _ eq_refl).
Defined.

(** ** The two row functions *)

(** X7.  Whenever the API path makes a row of a record, the local-tool
    path makes one too: it has the same identifier, authors, date,
    headings and other terms, and the API row's title and abstract are
    the collapsed forms of the local row's. *)
Theorem api_row_is_collapsed_local_row (record : RawRecord) (row : Row) :
  biopython_row record = Ok row ->
  exists t a,
    edirect_row record
    = Ok {| pmid := pmid row; ti := VStr t; ab := VStr a; fau := fau row;
            dp := dp row; mh := mh row; ot := ot row |} /\
    ti row = VStr (collapse_whitespace t) /\
    ab row = VStr (collapse_whitespace a).
Proof.
  unfold biopython_row, edirect_row, re_sub.
  destruct (record_get record "AB") as [a|?]; [|discriminate].
  destruct (record_get record "TI") as [t|?]; [|discriminate].
  destruct (int (record_get record "PMID")) as [n|?]; [|discriminate].
  intros Heq. injection Heq as <-. exists t, a. cbn.
  rewrite !re_sub_spaces_collapse. repeat split; reflexivity.
Qed.

Lemma api_row_is_collapsed_local_row_witness :
  exists t a,
    edirect_row spaced_title_record
    = Ok {| pmid := 31452104; ti := VStr t; ab := VStr a; fau := VStr "";
            dp := VStr ""; mh := VStr ""; ot := VStr "" |} /\
    VStr "Foo Bar" = VStr (collapse_whitespace t).
Proof.
  destruct (api_row_is_collapsed_local_row spaced_title_record
              {| pmid := 31452104; ti := VStr "Foo Bar"; ab := VStr "";
                 fau := VStr ""; dp := VStr ""; mh := VStr ""; ot := VStr "" |}
              eq_refl) as (t & a & Hrow & Ht & _).
  exists t, a. split; assumption.
Defined.

(** ** Identifiers written in decimal digits *)

Lemma lstrip_digit (c : ascii) (t : string) :
  Py.is_digit c = true -> Py.lstrip (String c t) = String c t.
Proof.
  intros Hc. cbn [Py.lstrip].
  destruct c as [[] [] [] [] [] [] [] []]; try discriminate Hc; reflexivity.
Qed.

Lemma rstrip_all_digits (s : string) :
  all_digits s = true -> Py.rstrip s = s.
Proof.
  induction s as [|c t IH]; [reflexivity|]. cbn [all_digits].
  intros Hall. apply andb_true_iff in Hall as [Hc Ht].
  cbn [Py.rstrip]. rewrite (IH Ht). destruct t as [|d u]; [|reflexivity].
  destruct c as [[] [] [] [] [] [] [] []]; try discriminate Hc; reflexivity.
Qed.

Lemma digits_all_digits (s : string) (acc : Z) (prev : bool) :
  all_digits s = true -> (s <> EmptyString \/ prev = true) ->
  Py.digits s acc prev = Some (decimal_from acc s).
Proof.
  revert acc prev. induction s as [|c t IH]; intros acc prev Hall Hne.
  - destruct Hne as [Hne| ->]; [contradiction|reflexivity].
  - cbn [all_digits] in Hall. apply andb_true_iff in Hall as [Hc Ht].
    cbn [Py.digits decimal_from]. rewrite Hc. apply IH; auto.
Qed.

Lemma count_digits_all_digits (s : string) :
  all_digits s = true -> Py.count_digits s = String.length s.
Proof.
  induction s as [|c t IH]; [reflexivity|]. cbn [all_digits].
  intros Hall. apply andb_true_iff in Hall as [Hc Ht].
  cbn. rewrite Hc, (IH Ht). reflexivity.
Qed.

Lemma decimal_from_nonneg (s : string) (acc : Z) :
  all_digits s = true -> 0 <= acc -> 0 <= decimal_from acc s.
Proof.
  revert acc. induction s as [|c t IH]; intros acc Hall Hacc; [exact Hacc|].
  cbn [all_digits] in Hall. apply andb_true_iff in Hall as [Hc Ht].
  cbn [decimal_from]. apply IH; [exact Ht|].
  assert (0 <= Py.digit_value c); [|lia].
  destruct c as [[] [] [] [] [] [] [] []]; try discriminate Hc;
    vm_compute; discriminate.
Qed.

(** X8.  A non-empty identifier of at most 4300 decimal digits is read as
    the number it writes, which is not negative: the local-tool path then
    makes the row with that number and the other six fields as the record
    has them (the empty string for an absent tag). *)
Theorem decimal_identifier_row (record : RawRecord) (s : string) :
  record !! "PMID" = Some (VStr s) ->
  all_digits s = true ->
  s <> EmptyString ->
  (String.length s <= 4300)%nat ->
  Py.int_of_str s = Ok (decimal s) /\
  0 <= decimal s /\
  edirect_row record
  = Ok {| pmid := decimal s;
          ti := record_get record "TI";
          ab := record_get record "AB";
          fau := record_get record "FAU";
          dp := record_get record "DP";
          mh := record_get record "MH";
          ot := record_get record "OT" |}.
Proof.
  intros Hp Hall Hne Hlen.
  assert (Py.int_of_str s = Ok (decimal s)) as Hint.
  { unfold Py.int_of_str. destruct s as [|c t]; [contradiction|].
    pose proof Hall as Hall'. cbn [all_digits] in Hall'.
    apply andb_true_iff in Hall' as [Hc Ht].
    rewrite (lstrip_digit c t Hc), (rstrip_all_digits _ Hall).
    assert (match String c t with
            | String "+" t0 => (1, t0)
            | String "-" t0 => (-1, t0)
            | _ => (1, String c t)
            end = (1, String c t)) as ->.
    { destruct c as [[] [] [] [] [] [] [] []]; try discriminate Hc;
        reflexivity. }
    rewrite (digits_all_digits _ 0 false Hall) by (left; discriminate).
    rewrite (count_digits_all_digits _ Hall).
    destruct (Nat.ltb_spec Py.int_max_str_digits (String.length (String c t)));
      [unfold Py.int_max_str_digits in *; lia|].
    unfold decimal. f_equal. lia. }
  split; [exact Hint|].
  split; [apply decimal_from_nonneg; [exact Hall|lia]|].
  unfold edirect_row. rewrite (record_get_present _ _ _ Hp). cbn [int].
  now rewrite Hint.
Qed.

Lemma decimal_identifier_row_witness :
  Py.int_of_str "31452104" = Ok 31452104 /\
  pmid <$> (match edirect_row spaced_title_record with
            | Ok row => Some row
            | Err _ => None
            end) = Some 31452104.
Proof.
  destruct (decimal_identifier_row spaced_title_record "31452104"
              eq_refl eq_refl ltac:(discriminate) ltac:(cbn; lia))
    as (Hint & _ & Hrow).
  split; [exact Hint|]. rewrite Hrow. reflexivity.
Defined.

(** ** The local-tool path, spelled out *)

Lemma pubmed_search_edirect_run (host : Host) (query : string)
    (key : option string) (c : Client) :
  pubmed_search_edirect host query key c
  = if negb (edirect_isdir host) then (c, [], Err ImportError)
    else
      match edirect_command host query key with
      | None =>
          (c, [Print MsgDownloadingData],
           Err (UnsupportedSystem (platform_system host)))
      | Some (platform, cmd) =>
          match check_output host cmd with
          | Failed e =>
              (c, [Print MsgDownloadingData; Print (MsgCmd platform query);
                   Subprocess cmd],
               Err (TransportError e))
          | Served records =>
              match records_loop edirect_row records [] with
              | Ok table =>
                  (c, [Print MsgDownloadingData; Print (MsgCmd platform query);
                       Subprocess cmd; Print MsgExtracting; Print MsgWriting;
                       Print MsgDone],
                   Ok table)
              | Err e =>
                  (c, [Print MsgDownloadingData; Print (MsgCmd platform query);
                       Subprocess cmd; Print MsgExtracting],
                   Err e)
              end
          end
      end.
Proof.
  unfold pubmed_search_edirect, edirect_command.
  destruct (negb (edirect_isdir host)); [reflexivity|].
  unfold bind, print, emit, ret, raise, lift, subprocess_check_output.
  destruct (String.eqb (platform_system host) "Linux");
    [|destruct (String.eqb (platform_system host) "Windows");
      [|reflexivity]];
    (destruct (check_output host _) as [records|e]; cbn [of_reply];
     [|reflexivity]);
    destruct (records_loop edirect_row records []); reflexivity.
Qed.

Lemma edirect_command_key (host : Host) (query : string) (key : option string)
    (platform : string) (cmd : command) :
  edirect_command host query key = Some (platform, cmd) ->
  exported_key cmd = (if Py.truthy key then key else None) /\
  pipeline_query cmd = query /\
  platform = platform_system host /\
  (platform = "Linux" \/ platform = "Windows").
Proof.
  unfold edirect_command.
  destruct (String.eqb_spec (platform_system host) "Linux") as [Hl|_].
  - intros Heq. injection Heq as <- <-. rewrite Hl. auto.
  - destruct (String.eqb_spec (platform_system host) "Windows") as [Hw|_];
      [|discriminate].
    intros Heq. injection Heq as <- <-. rewrite Hw. auto.
Qed.

(** X9.  The local-tool path checks the edirect folder before the
    platform and both before running anything: without the folder it
    raises ImportError having done nothing at all, on any platform; with
    the folder on a system other than Linux or Windows it raises the
    unsupported-system error after its first message; in both cases no
    process is started. *)
Theorem edirect_refuses_before_running (host : Host) (query : string)
    (key : option string) (c : Client) :
  (edirect_isdir host = false ->
   pubmed_search_edirect host query key c = (c, [], Err ImportError)) /\
  (edirect_isdir host = true ->
   platform_system host <> "Linux" -> platform_system host <> "Windows" ->
   pubmed_search_edirect host query key c
   = (c, [Print MsgDownloadingData],
      Err (UnsupportedSystem (platform_system host)))) /\
  (is_ok (result_of (pubmed_search_edirect host query key c)) = true ->
   edirect_isdir host = true /\
   (platform_system host = "Linux" \/ platform_system host = "Windows")).
Proof.
  rewrite pubmed_search_edirect_run. split; [|split].
  - intros ->. reflexivity.
  - intros -> Hl Hw. cbn [negb]. unfold edirect_command.
    destruct (String.eqb_spec (platform_system host) "Linux");
      [contradiction|].
    destruct (String.eqb_spec (platform_system host) "Windows");
      [contradiction|reflexivity].
  - destruct (edirect_isdir host); [|discriminate]. cbn [negb].
    destruct (edirect_command host query key) as [[platform cmd]|] eqn:Hcmd;
      [|discriminate].
    intros _. split; [reflexivity|].
    destruct (edirect_command_key _ _ _ _ _ Hcmd) as (_ & _ & <- & Hp).
    exact Hp.
Qed.

Lemma edirect_refuses_before_running_witness :
  pubmed_search_edirect
    {| edirect_isdir := true; platform_system := "Darwin";
       check_output := fun _ => Served [title_record] |}
    "cancer" None fresh_client
  = (fresh_client, [Print MsgDownloadingData], Err (UnsupportedSystem "Darwin")).
Proof.
  apply (proj1 (proj2 (edirect_refuses_before_running
                  {| edirect_isdir := true; platform_system := "Darwin";
                     check_output := fun _ => Served [title_record] |}
                  "cancer" None fresh_client)));
    [reflexivity|discriminate|discriminate].
Defined.








(** ** The path handed to WSL *)

Lemma slashes_no_backslash (s : string) :
  ~ In backslash (list_ascii_of_string (slashes s)).
Proof.
  induction s as [|c t IH]; [intros []|].
  cbn [slashes list_ascii_of_string]. intros [Hc|Hin]; [|auto].
  destruct (Ascii.eqb_spec c backslash) as [->|Hne]; [discriminate Hc|].
  congruence.
Qed.

Lemma slashes_without_backslash (s : string) :
  ~ In backslash (list_ascii_of_string s) -> slashes s = s.
Proof.
  induction s as [|c t IH]; [reflexivity|].
  cbn [slashes list_ascii_of_string]. intros Hnone.
  destruct (Ascii.eqb_spec c backslash) as [->|Hne].
  - exfalso. apply Hnone. left. reflexivity.
  - f_equal. apply IH. intros Hin. apply Hnone. right. exact Hin.
Qed.

Lemma mount_drive_without_backslash (s : string) :
  ~ In backslash (list_ascii_of_string s) -> mount_drive s = s.
Proof.
  intros Hnone. unfold mount_drive.
  destruct s as [|d [|colon t]]; try reflexivity.
  destruct colon as [[] [] [] [] [] [] [] []]; try reflexivity;
    destruct t as [|sep rest]; try reflexivity.
  destruct (Ascii.eqb_spec sep backslash) as [->|Hne].
  - exfalso. apply Hnone. cbn. auto.
  - now rewrite andb_false_r.
Qed.

Lemma slashes_length (s : string) :
  String.length (slashes s) = String.length s.
Proof. induction s as [|c t IH]; cbn; congruence. Qed.

Lemma lower_word_not_backslash (d : ascii) :
  is_word d = true -> Ascii.eqb (lower d) backslash = false.
Proof.
  destruct d as [[] [] [] [] [] [] [] []]; intros Hd;
    try discriminate Hd; reflexivity.
Qed.

(** X13.  The path handed to WSL never contains a backslash, whatever
    the input path, and converting an already converted path changes
    nothing. *)
Theorem wsl_path_no_backslash (edirect_path : string) :
  ~ In backslash (list_ascii_of_string (wsl_path edirect_path)) /\
  wsl_path (wsl_path edirect_path) = wsl_path edirect_path.
Proof.
  pose proof (slashes_no_backslash (mount_drive edirect_path)) as Hnone.
  split; [exact Hnone|].
  unfold wsl_path at 1. fold (wsl_path edirect_path) in Hnone.
  now rewrite (mount_drive_without_backslash _ Hnone),
    (slashes_without_backslash _ Hnone).
Qed.

(** X14.  A path that starts with a drive (one word character, a colon
    and a backslash) is mounted under /mnt/ with the drive in lower case
    and the remaining backslashes turned into slashes, which makes it four
    characters longer; the drive letter survives the conversion. *)
Theorem wsl_path_drive (d : ascii) (rest : string) :
  is_word d = true ->
  let converted := wsl_path (String d (String ":" (String backslash rest))) in
  converted = "/mnt/" +:+ String (lower d) (String "/" (slashes rest)) /\
  String.length converted = (String.length rest + 7)%nat /\
  lower (lower d) = lower d.
Proof.
  intros Hd. cbv zeta. unfold wsl_path, mount_drive.
  rewrite Hd. change (Ascii.eqb backslash backslash) with true. cbn [andb].
  assert (slashes ("/mnt/" +:+ String (lower d) (String "/" rest))
          = "/mnt/" +:+ String (lower d) (String "/" (slashes rest))) as ->.
  { pose proof (lower_word_not_backslash d Hd) as Hl.
    assert (forall x, "/mnt/" +:+ x
                      = String "/" (String "m" (String "n" (String "t"
                          (String "/" x))))) as Hmnt by reflexivity.
    rewrite !Hmnt. cbn [slashes].
    change (Ascii.eqb "/" backslash) with false.
    change (Ascii.eqb "m" backslash) with false.
    change (Ascii.eqb "n" backslash) with false.
    change (Ascii.eqb "t" backslash) with false.
    now rewrite Hl. }
  split; [reflexivity|]. split.
  - change (String.length
              (String "/" (String "m" (String "n" (String "t" (String "/"
                 (String (lower d) (String "/" (slashes rest))))))))
            = (String.length rest + 7)%nat).
    cbn [String.length]. rewrite slashes_length. lia.
  - destruct d as [[] [] [] [] [] [] [] []]; try discriminate Hd; reflexivity.
Qed.

Lemma wsl_path_drive_witness :
  wsl_path
    (String "C" (String ":" (String backslash
       ("Users" +:+ String backslash "edirect"))))
  = "/mnt/c/Users/edirect".
Proof.
  exact (proj1 (wsl_path_drive "C"
                  ("Users" +:+ String backslash "edirect") eq_refl)).
Defined.



(** ** Identifiers without a digit *)

(** X16.  A record whose identifier holds no decimal digit at all (text,
    blanks, a lone sign) is rejected by both paths: the API path makes no
    row of it and the local-tool path raises the ValueError of int. *)
Theorem identifier_without_digit_rejected (record : RawRecord) (s : string) :
  record !! "PMID" = Some (VStr s) ->
  Py.count_digits s = O ->
  pmid_rejected record /\
  is_ok (biopython_row record) = false /\
  edirect_row record = Err (ValueError IntLiteral).
Proof.
  intros Hp Hnone.
  pose proof (int_of_str_no_digit s Hnone) as Hint.
  assert (pmid_rejected record) as Hrej by (right; eauto).
  split; [exact Hrej|]. split.
  - apply biopython_row_rejected, pmid_rejected_int, Hrej.
  - unfold edirect_row. now rewrite (pmid_rejected_int record Hrej).
Qed.

Lemma identifier_without_digit_rejected_witness :
  edirect_row (<[ "PMID" := VStr "n/a" ]> title_record)
  = Err (ValueError IntLiteral).
Proof.
  exact (proj2 (proj2 (identifier_without_digit_rejected
                         (<[ "PMID" := VStr "n/a" ]> title_record) "n/a"
                         eq_refl eq_refl))).
Defined.

(** ** Offsets and requests *)



